(** * Turnstile client: token extraction, verification and auto-refresh

    A shallow embedding of
      - netlify/get-turnstile-token.js  ([Extract]),
      - netlify/verify-turnstile.js     ([Verify]),
      - src/turnstile-client.ts, [setupAutoRefresh]  ([Refresh]),
    together with the JavaScript platform pieces they call ([Js]).

    Text is identified with its UTF-8 bytes: a [string] is the byte
    sequence of a JavaScript string, so [Buffer.from(s, 'utf8')] and
    [buf.toString('utf8')] are the identity. *)

From stdpp Require Import gmap strings list fin_maps.
From Stdlib Require Import ZArith NArith Ascii String.

Local Open Scope string_scope.
Set Warnings "-register-all".

(* ===================================================================== *)
(** ** JavaScript values and the platform functions the code calls       *)
(* ===================================================================== *)

Module Js.

(** A value produced by [JSON.parse]. A number is kept as the exact
    decimal [m * 10^e] of its literal. *)
Inductive json : Type :=
| JNull
| JBool (b : bool)
| JNumber (m e : Z)
| JString (s : string)
| JArray (items : list json)
| JObject (members : list (string * json)).

(** The double nearest to [m * 10^e] is zero exactly when the magnitude is
    at most [2^-1075], half of the least subnormal. *)
Definition number_is_zero (m e : Z) : bool :=
  if (m =? 0)%Z then true
  else if (0 <=? e)%Z then false
  else (Z.abs m * 2 ^ 1075 <=? 10 ^ (- e))%Z.

(** ToBoolean. *)
Definition truthy (v : json) : bool :=
  match v with
  | JNull => false
  | JBool b => b
  | JNumber m e => negb (number_is_zero m e)
  | JString s => negb (s =? "")
  | JArray _ => true
  | JObject _ => true
  end.

(** ToBoolean of a value that is a string or [undefined]/[null]. *)
Definition truthy_str (o : option string) : bool :=
  match o with
  | Some s => negb (s =? "")
  | None => false
  end.

(** [a || b] on such values. *)
Definition or_str (a b : option string) : option string :=
  if truthy_str a then a else b.

(** Own-property read on a parsed object: the last duplicate member wins,
    as [JSON.parse] keeps it. *)
Fixpoint member (k : string) (ms : list (string * json)) : option json :=
  match ms with
  | [] => None
  | (k', v) :: rest =>
      match member k rest with
      | Some w => Some w
      | None => if k' =? k then Some v else None
      end
  end.

Inductive exception : Type :=
| TypeError        (* property read on undefined or null *)
| SyntaxError      (* JSON.parse *)
| LibraryError     (* an error raised by a library: busboy, fetch *).

(** Completion of an evaluation / settlement of a promise. *)
Inductive completion (A : Type) : Type :=
| Normal (a : A)
| Throw (e : exception).
Arguments Normal {A} a.
Arguments Throw {A} e.

#[export] Instance completion_ret : MRet completion := fun A a => Normal a.
#[export] Instance completion_bind : MBind completion := fun A B k c =>
  match c with
  | Normal a => k a
  | Throw e => Throw e
  end.

(** [try { c } catch (error) { handler }] *)
Definition try_catch {A : Type} (c : completion A) (handler : exception -> completion A)
  : completion A :=
  match c with
  | Normal a => Normal a
  | Throw e => handler e
  end.

(** [payload[k]] for the token keys (neither numeric nor inherited): a
    read on [null] throws, a read on any other non-object is undefined. *)
Definition get_property (payload : json) (k : string) : completion (option json) :=
  match payload with
  | JNull => Throw TypeError
  | JObject ms => Normal (member k ms)
  | _ => Normal None
  end.

(** [String.prototype.includes]. *)
Fixpoint includes (hay needle : string) : bool :=
  if String.prefix needle hay then true
  else match hay with
       | EmptyString => false
       | String _ rest => includes rest needle
       end.

(** [String.prototype.toLowerCase] on ASCII letters. *)
Definition lower_ascii (c : ascii) : ascii :=
  let n := N_of_ascii c in
  if ((65 <=? n) && (n <=? 90))%N then ascii_of_N (n + 32) else c.

Fixpoint toLowerCase (s : string) : string :=
  match s with
  | EmptyString => EmptyString
  | String c rest => String (lower_ascii c) (toLowerCase rest)
  end.

(** Outcome of feeding a whole body to a busboy instance: the [field]
    events emitted, in order, before [finish]; or an [error] event (also a
    throwing constructor, which rejects the same promise). *)
Inductive busboy_outcome : Type :=
| BusboyFinish (fields : list (string * string))
| BusboyError.

(** The library functions used by the server-side code. *)
Record Platform : Type := {
  (** [JSON.parse]; [None] is a thrown SyntaxError *)
  JSON_parse : string -> option json;
  (** [new URLSearchParams(text)]: the list of name/value pairs *)
  URLSearchParams : string -> list (string * string);
  (** [Buffer.from(text, 'base64')] *)
  Buffer_from_base64 : string -> string;
  (** [busboy({headers: {'content-type': ct}})] fed the body *)
  busboy : string -> string -> busboy_outcome
}.

(** [URLSearchParams.prototype.get]: first value under the name, or null. *)
Fixpoint params_get (k : string) (ps : list (string * string)) : option string :=
  match ps with
  | [] => None
  | (k', v) :: rest => if k' =? k then Some v else params_get k rest
  end.

End Js.

(* ===================================================================== *)
(** ** netlify/get-turnstile-token.js                                    *)
(* ===================================================================== *)

Module Extract.
Import Js.

(** The fields of a Netlify [HandlerEvent] the extractor reads. [None] is
    an absent ([undefined]) property. *)
Record HandlerEvent : Type := {
  headers : option (gmap string string);
  body : option string;
  isBase64Encoded : bool
}.

(** A token read from a header or from [params.get]: a string, or null. *)
Definition str_value (o : option string) : json :=
  match o with
  | Some s => JString s
  | None => JNull
  end.

(** [headers['x-turnstile-token'] || headers['X-Turnstile-Token']] *)
Definition header_token (h : gmap string string) : option string :=
  or_str (h !! "x-turnstile-token") (h !! "X-Turnstile-Token").

(** [h['content-type'] || h['Content-Type'] || ''] *)
Definition content_type (h : gmap string string) : string :=
  default "" (or_str (or_str (h !! "content-type") (h !! "Content-Type")) (Some "")).

Section WithPlatform.
Variable P : Platform.

Definition getBodyBuffer (event : HandlerEvent) : string :=
  if negb (truthy_str (body event)) then ""
  else
    let b := default "" (body event) in
    if isBase64Encoded event then Buffer_from_base64 P b else b.

(** The decoded buffer read back as UTF-8 text. With text identified
    with its UTF-8 bytes, [toString('utf8')] is the identity; it is so in
    the code whenever the decoded bytes are well-formed UTF-8. A base64
    body that decodes to ill-formed UTF-8, where the code substitutes
    U+FFFD, is outside this model. *)
Definition getTextBody (event : HandlerEvent) : string :=
  if negb (truthy_str (body event)) then ""
  else
    let b := default "" (body event) in
    if isBase64Encoded event then Buffer_from_base64 P b else b.

(** The [field] listener of [parseMultipart]: every field named
    [cf-turnstile-response] overwrites [token]. *)
Definition on_field (token : json) (f : string * string) : json :=
  if fst f =? "cf-turnstile-response" then JString (snd f) else token.

Definition parseMultipart (event : HandlerEvent) (contentType : string)
  : completion json :=
  match busboy P contentType (getBodyBuffer event) with
  | BusboyFinish fields => Normal (fold_left on_field fields JNull)
  | BusboyError => Throw LibraryError
  end.

(** The body of the [try] block of the JSON branch. Its [catch] logs to
    the console, which is not part of the settled value, and returns
    null. *)
Definition json_branch (event : HandlerEvent) : completion json :=
  let body := getTextBody event in
  match JSON_parse P body with
  | None => Throw SyntaxError
  | Some payload =>
      v1 ← get_property payload "cf-turnstile-response";
      if from_option truthy false v1 then Normal (default JNull v1)
      else
        v2 ← get_property payload "cfTurnstileResponse";
        if from_option truthy false v2 then Normal (default JNull v2)
        else Normal JNull
  end.

Definition getTurnstileToken (event : HandlerEvent) : completion json :=
  let headers' := default ∅ (headers event) in
  let headerToken := header_token headers' in
  if truthy_str headerToken then Normal (str_value headerToken)
  else
    (* [event.headers['content-type']] reads the event's own property, not
       the defaulted [headers] *)
    match headers event with
    | None => Throw TypeError
    | Some event_headers =>
        let contentType := content_type event_headers in
        if includes contentType "multipart/form-data" then
          parseMultipart event contentType
        else if includes contentType "application/x-www-form-urlencoded" then
          let body := getTextBody event in
          let params := URLSearchParams P body in
          Normal (str_value (params_get "cf-turnstile-response" params))
        else if includes contentType "application/json" then
          try_catch (json_branch event) (fun _ => Normal JNull)
        else Normal JNull
    end.

End WithPlatform.

End Extract.

(* ===================================================================== *)
(** ** Reference models of the platform functions                        *)
(* ===================================================================== *)

(** Executable models of [URLSearchParams] (WHATWG URL, urlencoded
    parsing), [Buffer.from(_, 'base64')] (RFC 4648, lenient as in Node)
    and [JSON.parse] (RFC 8259), used to run the repository's test inputs.
    The theorems below hold for every [Js.Platform]. *)
Module Node.
Import Js.

Definition hex_digit (c : ascii) : option N :=
  let n := N_of_ascii c in
  if ((48 <=? n) && (n <=? 57))%N then Some (n - 48)%N
  else if ((65 <=? n) && (n <=? 70))%N then Some (n - 55)%N
  else if ((97 <=? n) && (n <=? 102))%N then Some (n - 87)%N
  else None.

(** Percent-decoding, byte by byte. The result is the text the platform
    produces whenever the decoded bytes are well-formed UTF-8; the
    substitution of U+FFFD for other bytes is not modelled. *)
Fixpoint percent_decode (s : string) : string :=
  match s with
  | String "%" (String a (String b rest) as tl) =>
      match hex_digit a, hex_digit b with
      | Some x, Some y => String (ascii_of_N (16 * x + y)) (percent_decode rest)
      | _, _ => String "%" (percent_decode tl)
      end
  | String c rest => String c (percent_decode rest)
  | EmptyString => EmptyString
  end.

Fixpoint plus_to_space (s : string) : string :=
  match s with
  | String "+" rest => String " " (plus_to_space rest)
  | String c rest => String c (plus_to_space rest)
  | EmptyString => EmptyString
  end.

(** Split at every occurrence of the separator. *)
Fixpoint split_on (sep : ascii) (s : string) : list string :=
  match s with
  | EmptyString => [EmptyString]
  | String c rest =>
      match split_on sep rest with
      | piece :: pieces =>
          if Ascii.eqb c sep then EmptyString :: piece :: pieces
          else String c piece :: pieces
      | [] => [String c EmptyString]
      end
  end.

(** Split at the first occurrence of the separator, if any. *)
Fixpoint split_first (sep : ascii) (s : string) : string * string :=
  match s with
  | EmptyString => (EmptyString, EmptyString)
  | String c rest =>
      if Ascii.eqb c sep then (EmptyString, rest)
      else let '(a, b) := split_first sep rest in (String c a, b)
  end.

Definition decode_component (s : string) : string :=
  percent_decode (plus_to_space s).

Definition URLSearchParams (init : string) : list (string * string) :=
  let text := match init with String "?" rest => rest | _ => init end in
  omap (fun piece =>
          if piece =? "" then None
          else let '(name, value) := split_first "=" piece in
               Some (decode_component name, decode_component value))
       (split_on "&" text).

(** The sextet of a base64 (or base64url) character. *)
Definition sextet (c : ascii) : option N :=
  let n := N_of_ascii c in
  if ((65 <=? n) && (n <=? 90))%N then Some (n - 65)%N
  else if ((97 <=? n) && (n <=? 122))%N then Some (n - 71)%N
  else if ((48 <=? n) && (n <=? 57))%N then Some (n + 4)%N
  else if ((n =? 43) || (n =? 45))%N then Some 62%N
  else if ((n =? 47) || (n =? 95))%N then Some 63%N
  else None.

(** The sextets up to the first padding character; other characters are
    skipped. *)
Fixpoint sextets (s : string) : list N :=
  match s with
  | EmptyString => []
  | String "=" _ => []
  | String c rest =>
      match sextet c with
      | Some x => x :: sextets rest
      | None => sextets rest
      end
  end.

Fixpoint bytes_of_sextets (l : list N) : string :=
  match l with
  | a :: b :: c :: d :: rest =>
      let n := (a * 262144 + b * 4096 + c * 64 + d)%N in
      String (ascii_of_N (n / 65536))
        (String (ascii_of_N ((n / 256) mod 256))
           (String (ascii_of_N (n mod 256)) (bytes_of_sextets rest)))
  | [a; b; c] =>
      let n := (a * 4096 + b * 64 + c)%N in
      String (ascii_of_N (n / 1024)) (String (ascii_of_N ((n / 4) mod 256)) "")
  | [a; b] => String (ascii_of_N ((a * 64 + b) / 16)) ""
  | _ => ""
  end.

Definition Buffer_from_base64 (s : string) : string :=
  bytes_of_sextets (sextets s).

Definition is_ws (c : ascii) : bool :=
  let n := N_of_ascii c in
  ((n =? 32) || (n =? 9) || (n =? 10) || (n =? 13))%N.

Fixpoint skip_ws (s : string) : string :=
  match s with
  | String c rest => if is_ws c then skip_ws rest else s
  | EmptyString => s
  end.

(** UTF-8 bytes of a code unit given by a [\uXXXX] escape. Each escape
    is encoded by itself: two escapes that form a surrogate pair are not
    joined into one code point. *)
Definition utf8_of_code (cp : N) : string :=
  if (cp <? 128)%N then String (ascii_of_N cp) ""
  else if (cp <? 2048)%N then
    String (ascii_of_N (192 + cp / 64)) (String (ascii_of_N (128 + cp mod 64)) "")
  else
    String (ascii_of_N (224 + cp / 4096))
      (String (ascii_of_N (128 + (cp / 64) mod 64))
         (String (ascii_of_N (128 + cp mod 64)) "")).

(** The character denoted by a one-letter escape: quote, backslash,
    slash, b, f, n, r, t. *)
Definition simple_escape (c : ascii) : option ascii :=
  let n := N_of_ascii c in
  if ((n =? 34) || (n =? 92) || (n =? 47))%N then Some c
  else if (n =? 98)%N then Some (ascii_of_N 8)
  else if (n =? 102)%N then Some (ascii_of_N 12)
  else if (n =? 110)%N then Some (ascii_of_N 10)
  else if (n =? 114)%N then Some (ascii_of_N 13)
  else if (n =? 116)%N then Some (ascii_of_N 9)
  else None.

(** The characters of a string literal after its opening quote, and the
    text after its closing quote. *)
Fixpoint string_body (s : string) : option (string * string) :=
  match s with
  | EmptyString => None
  | String c rest =>
      let n := N_of_ascii c in
      if (n =? 34)%N then Some (EmptyString, rest)
      else if (n =? 92)%N then
        match rest with
        | String "u" (String a (String b (String c' (String d rest')))) =>
            match hex_digit a, hex_digit b, hex_digit c', hex_digit d with
            | Some w, Some x, Some y, Some z =>
                '(str, tl) ← string_body rest';
                Some (utf8_of_code (4096 * w + 256 * x + 16 * y + z) +:+ str, tl)
            | _, _, _, _ => None
            end
        | String e rest' =>
            e' ← simple_escape e;
            '(str, tl) ← string_body rest';
            Some (String e' str, tl)
        | EmptyString => None
        end
      else if (n <? 32)%N then None
      else '(str, tl) ← string_body rest; Some (String c str, tl)
  end.

Definition is_digit (c : ascii) : bool :=
  let n := N_of_ascii c in ((48 <=? n) && (n <=? 57))%N.

(** The longest prefix of decimal digits, and the rest. *)
Fixpoint take_digits (s : string) : string * string :=
  match s with
  | String c rest =>
      if is_digit c then let '(ds, tl) := take_digits rest in (String c ds, tl)
      else (EmptyString, s)
  | EmptyString => (EmptyString, EmptyString)
  end.

Fixpoint digits_value (acc : Z) (ds : string) : Z :=
  match ds with
  | String c rest => digits_value (10 * acc + Z.of_N (N_of_ascii c - 48)) rest
  | EmptyString => acc
  end.

(** A number literal: [-? int frac? exp?]. *)
Definition number (s : string) : option (json * string) :=
  let '(neg, s1) := match s with String "-" r => (true, r) | _ => (false, s) end in
  let '(int, s2) := take_digits s1 in
  if (int =? "") || (String.prefix "0" int && negb (int =? "0")) then None
  else
    '(frac, s3) ← match s2 with
                  | String "." r =>
                      let '(fs, tl) := take_digits r in
                      if fs =? "" then None else Some (fs, tl)
                  | _ => Some (EmptyString, s2)
                  end;
    '(ex, s4) ← match s3 with
                | String c r =>
                    if negb ((N_of_ascii c =? 101) || (N_of_ascii c =? 69))%N
                    then Some (0%Z, s3)
                    else
                      let '(eneg, r1) := match r with
                                         | String "-" r' => (true, r')
                                         | String "+" r' => (false, r')
                                         | _ => (false, r)
                                         end in
                      let '(es, tl) := take_digits r1 in
                      if es =? "" then None
                      else Some (if eneg then (- digits_value 0 es)%Z
                                 else digits_value 0 es, tl)
                | EmptyString => Some (0%Z, s3)
                end;
    let m := digits_value 0 (int +:+ frac) in
    Some (JNumber (if neg then (- m)%Z else m)
                  (ex - Z.of_nat (String.length frac))%Z, s4).

Definition literal (word : string) (v : json) (s : string) : option (json * string) :=
  if String.prefix word s
  then Some (v, String.substring (String.length word)
                                 (String.length s - String.length word) s)
  else None.

Definition is_quote (c : ascii) : bool := (N_of_ascii c =? 34)%N.

Fixpoint value (fuel : nat) (s : string) {struct fuel} : option (json * string) :=
  match fuel with
  | O => None
  | S fuel' =>
      match skip_ws s with
      | String "{" rest =>
          match skip_ws rest with
          | String "}" tl => Some (JObject [], tl)
          | rest' => '(ms, tl) ← members fuel' rest'; Some (JObject ms, tl)
          end
      | String "[" rest =>
          match skip_ws rest with
          | String "]" tl => Some (JArray [], tl)
          | rest' => '(vs, tl) ← elements fuel' rest'; Some (JArray vs, tl)
          end
      | String "t" _ as s' => literal "true" (JBool true) s'
      | String "f" _ as s' => literal "false" (JBool false) s'
      | String "n" _ as s' => literal "null" JNull s'
      | String c rest as s' =>
          if is_quote c
          then '(str, tl) ← string_body rest; Some (JString str, tl)
          else number s'
      | EmptyString => None
      end
  end
with elements (fuel : nat) (s : string) {struct fuel} : option (list json * string) :=
  match fuel with
  | O => None
  | S fuel' =>
      '(v, rest) ← value fuel' s;
      match skip_ws rest with
      | String "," tl => '(vs, tl') ← elements fuel' tl; Some (v :: vs, tl')
      | String "]" tl => Some ([v], tl)
      | _ => None
      end
  end
with members (fuel : nat) (s : string) {struct fuel}
  : option (list (string * json) * string) :=
  match fuel with
  | O => None
  | S fuel' =>
      match skip_ws s with
      | String c rest =>
          if is_quote c then
            '(k, rest1) ← string_body rest;
            match skip_ws rest1 with
            | String ":" rest2 =>
                '(v, rest3) ← value fuel' rest2;
                match skip_ws rest3 with
                | String "," tl =>
                    '(ms, tl') ← members fuel' tl; Some ((k, v) :: ms, tl')
                | String "}" tl => Some ([(k, v)], tl)
                | _ => None
                end
            | _ => None
            end
          else None
      | EmptyString => None
      end
  end.

Definition JSON_parse (text : string) : option json :=
  '(v, rest) ← value (2 * String.length text + 2) text;
  if skip_ws rest =? "" then Some v else None.

(** The quotation mark, and a string literal of plain text. *)
Definition quotation_mark : string := String (ascii_of_N 34) EmptyString.
Definition quoted (s : string) : string := quotation_mark +:+ s +:+ quotation_mark.

(** The platform with these models, over a given multipart parser. *)
Definition platform (bb : string -> string -> busboy_outcome) : Platform :=
  {| Js.JSON_parse := JSON_parse;
     Js.URLSearchParams := URLSearchParams;
     Js.Buffer_from_base64 := Buffer_from_base64;
     Js.busboy := bb |}.

End Node.

(* ===================================================================== *)
(** ** netlify/verify-turnstile.js                                       *)
(* ===================================================================== *)

Module Verify.
Import Js.

Record VerificationResult : Type := {
  success : bool;
  error : option string          (* [None]: the result has no [error] key *)
}.

(** What [fetch] is called with. [form] is the [URLSearchParams] body: its
    name/value pairs in the order they were appended. *)
Record Request : Type := {
  url : string;
  method : string;
  form : list (string * string);
  content_type : string
}.

(** What the code reads from a response. [json] is the outcome of
    [response.json()]: [None] when that promise rejects. *)
Record Response : Type := {
  ok : bool;
  status : N;
  statusText : string;
  json : option Js.json
}.

Inductive fetch_outcome : Type :=
| FetchRejects
| FetchResolves (response : Response).

(** The [console.error] calls of [verifyTurnstile]. *)
Inductive console_entry : Type :=
| SecretKeyRequired
| RequestFailed (status : N) (statusText : string)
| VerificationFailed (error_codes : option Js.json)
| ErrorVerifying (e : exception).

(** The effects of a call: console output and outbound requests, oldest
    first. *)
Record World : Type := {
  console : list console_entry;
  requests : list Request
}.

Definition quiet : World := {| console := []; requests := [] |}.

(** Effectful, possibly throwing computations. *)
Definition M (A : Type) : Type := World -> completion A * World.

#[export] Instance M_ret : MRet M := fun A a w => (Normal a, w).
#[export] Instance M_bind : MBind M := fun A B k c w =>
  match c w with
  | (Normal a, w') => k a w'
  | (Throw e, w') => (Throw e, w')
  end.

Definition lift {A : Type} (c : completion A) : M A := fun w => (c, w).

Definition try_catch_M {A : Type} (c : M A) (handler : exception -> M A) : M A :=
  fun w =>
    match c w with
    | (Normal a, w') => (Normal a, w')
    | (Throw e, w') => handler e w'
    end.

Definition console_error (entry : console_entry) : M unit :=
  fun w => (Normal tt, {| console := (console w ++ [entry])%list; requests := requests w |}).

(** [URLSearchParams.prototype.append] *)
Definition append (params : list (string * string)) (name value : string)
  : list (string * string) :=
  (params ++ [(name, value)])%list.

Definition siteverify : string :=
  "https://challenges.cloudflare.com/turnstile/v0/siteverify".

Definition not_configured : VerificationResult :=
  {| success := false; error := Some "Turnstile verification is not configured" |}.
Definition token_missing : VerificationResult :=
  {| success := false; error := Some "Turnstile token is missing" |}.
Definition verification_failed : VerificationResult :=
  {| success := false; error := Some "Security verification failed. Please try again." |}.
Definition verification_error : VerificationResult :=
  {| success := false; error := Some "Security verification error. Please try again." |}.
Definition verified : VerificationResult :=
  {| success := true; error := None |}.

Section WithFetch.
(** The remote end: what [fetch] settles to for a given request. *)
Variable remote : Request -> fetch_outcome.

Definition fetch (r : Request) : M Response :=
  fun w =>
    let w' := {| console := console w; requests := (requests w ++ [r])%list |} in
    match remote r with
    | FetchResolves response => (Normal response, w')
    | FetchRejects => (Throw LibraryError, w')
    end.

Definition response_json (r : Response) : M Js.json :=
  lift (match json r with
        | Some data => Normal data
        | None => Throw SyntaxError
        end).

(** [verifyTurnstile(token, secretKey, remoteIp = null)]; an argument is a
    string, or [None] for [null]/[undefined]. *)
Definition verifyTurnstile (token secretKey remoteIp : option string)
  : M VerificationResult :=
  if negb (truthy_str secretKey) then
    _ ← console_error SecretKeyRequired;
    mret not_configured
  else if negb (truthy_str token) then
    mret token_missing
  else
    try_catch_M
      (let formData := [] in
       let formData := append formData "secret" (default "" secretKey) in
       let formData := append formData "response" (default "" token) in
       let formData :=
         if truthy_str remoteIp
         then append formData "remoteip" (default "" remoteIp)
         else formData in
       response ← fetch {| url := siteverify;
                           method := "POST";
                           form := formData;
                           content_type := "application/x-www-form-urlencoded" |};
       if negb (ok response) then
         _ ← console_error (RequestFailed (status response) (statusText response));
         mret verification_failed
       else
         data ← response_json response;
         data_success ← lift (get_property data "success");
         if negb (from_option truthy false data_success) then
           codes ← lift (get_property data "error-codes");
           _ ← console_error (VerificationFailed codes);
           mret verification_failed
         else
           mret verified)
      (fun e =>
         _ ← console_error (ErrorVerifying e);
         mret verification_error).

End WithFetch.

End Verify.

(* ===================================================================== *)
(** ** src/turnstile-client.ts: setupAutoRefresh                         *)
(* ===================================================================== *)

(** One session of [setupAutoRefresh] in a page: the closure variables of
    the call, the page's timer table and listeners, the two things the
    controller reads from its environment ([window.turnstile] and the
    widget's [data-widget-id] attribute), and a trace of what it did.
    Time is in milliseconds; the page is single-threaded, so a callback
    runs to completion before the next one starts. *)
Module Refresh.

Local Open Scope N_scope.

Definition DEFAULT_REFRESH_INTERVAL : N := 120000.
Definition WIDGET_INIT_TIMEOUT : N := 10000.
Definition WIDGET_CHECK_INTERVAL : N := 100.

(** The number returned by [setInterval] / [setTimeout]. *)
Definition handle : Type := N.

(** The closures handed to [setInterval] and [setTimeout], by the line
    that creates them. *)
Inductive callback : Type :=
| CheckWidget                          (* setInterval, WIDGET_CHECK_INTERVAL *)
| ResetWidget (widgetId : string)      (* setInterval, refreshInterval *)
| CheckWidgetExpiry                    (* setTimeout, WIDGET_INIT_TIMEOUT *)
| DelayedSetupReset                    (* setTimeout(setupReset, 500) *)
| CheckScript                          (* setInterval, 100 *)
| CheckScriptExpiry (checkScript : handle)   (* setTimeout, 5000 *).

Record timer : Type := {
  id : handle;
  due : N;
  every : option N;                    (* [Some p]: an interval of period [p] *)
  action : callback
}.

(** [window.turnstile]: only [reset] is called; it may throw. *)
Record TurnstileAPI : Type := {
  reset_throws : string -> bool
}.

Inductive event : Type :=
| ResetCalled (time : N) (widgetId : string)
| Refreshed (time : N)                 (* onRefresh was called *)
| Failed (time : N)                    (* onError was called *)
| Warned (time : N)                    (* console.warn *).

(** The options. The two callbacks are the caller's code: whether one
    was supplied is kept, a call of it is recorded in the trace, and it is
    taken to return normally without touching the session. *)
Record AutoRefreshOptions : Type := {
  refreshInterval : option N;
  onRefresh : bool;                    (* a callback was supplied *)
  onError : bool
}.

Record State : Type := {
  (* closure variables *)
  turnstileResetInterval : option handle;
  checkWidgetInterval : option handle;
  isCleanedUp : bool;
  (* the page *)
  now : N;
  nextHandle : handle;
  timers : list timer;
  loadListener : bool;                 (* loadHandler is registered *)
  unloadListener : bool;               (* cleanup is registered *)
  (* the environment *)
  turnstile : option TurnstileAPI;
  widgetIdAttr : option string;        (* widget.getAttribute('data-widget-id') *)
  (* what happened, oldest first *)
  trace : list event
}.

Definition set_turnstileResetInterval (v : option handle) (s : State) : State :=
  {| turnstileResetInterval := v; checkWidgetInterval := checkWidgetInterval s;
     isCleanedUp := isCleanedUp s; now := now s; nextHandle := nextHandle s;
     timers := timers s; loadListener := loadListener s;
     unloadListener := unloadListener s; turnstile := turnstile s;
     widgetIdAttr := widgetIdAttr s; trace := trace s |}.

Definition set_checkWidgetInterval (v : option handle) (s : State) : State :=
  {| turnstileResetInterval := turnstileResetInterval s; checkWidgetInterval := v;
     isCleanedUp := isCleanedUp s; now := now s; nextHandle := nextHandle s;
     timers := timers s; loadListener := loadListener s;
     unloadListener := unloadListener s; turnstile := turnstile s;
     widgetIdAttr := widgetIdAttr s; trace := trace s |}.

Definition set_isCleanedUp (v : bool) (s : State) : State :=
  {| turnstileResetInterval := turnstileResetInterval s;
     checkWidgetInterval := checkWidgetInterval s;
     isCleanedUp := v; now := now s; nextHandle := nextHandle s;
     timers := timers s; loadListener := loadListener s;
     unloadListener := unloadListener s; turnstile := turnstile s;
     widgetIdAttr := widgetIdAttr s; trace := trace s |}.

Definition set_now (v : N) (s : State) : State :=
  {| turnstileResetInterval := turnstileResetInterval s;
     checkWidgetInterval := checkWidgetInterval s;
     isCleanedUp := isCleanedUp s; now := v; nextHandle := nextHandle s;
     timers := timers s; loadListener := loadListener s;
     unloadListener := unloadListener s; turnstile := turnstile s;
     widgetIdAttr := widgetIdAttr s; trace := trace s |}.

Definition set_timers (next : handle) (v : list timer) (s : State) : State :=
  {| turnstileResetInterval := turnstileResetInterval s;
     checkWidgetInterval := checkWidgetInterval s;
     isCleanedUp := isCleanedUp s; now := now s; nextHandle := next;
     timers := v; loadListener := loadListener s;
     unloadListener := unloadListener s; turnstile := turnstile s;
     widgetIdAttr := widgetIdAttr s; trace := trace s |}.

Definition set_listeners (load unload : bool) (s : State) : State :=
  {| turnstileResetInterval := turnstileResetInterval s;
     checkWidgetInterval := checkWidgetInterval s;
     isCleanedUp := isCleanedUp s; now := now s; nextHandle := nextHandle s;
     timers := timers s; loadListener := load;
     unloadListener := unload; turnstile := turnstile s;
     widgetIdAttr := widgetIdAttr s; trace := trace s |}.

Definition set_environment (api : option TurnstileAPI) (wid : option string)
  (s : State) : State :=
  {| turnstileResetInterval := turnstileResetInterval s;
     checkWidgetInterval := checkWidgetInterval s;
     isCleanedUp := isCleanedUp s; now := now s; nextHandle := nextHandle s;
     timers := timers s; loadListener := loadListener s;
     unloadListener := unloadListener s; turnstile := api;
     widgetIdAttr := wid; trace := trace s |}.

Definition record (e : event) (s : State) : State :=
  {| turnstileResetInterval := turnstileResetInterval s;
     checkWidgetInterval := checkWidgetInterval s;
     isCleanedUp := isCleanedUp s; now := now s; nextHandle := nextHandle s;
     timers := timers s; loadListener := loadListener s;
     unloadListener := unloadListener s; turnstile := turnstile s;
     widgetIdAttr := widgetIdAttr s; trace := (trace s ++ [e])%list |}.

(** *** The page's timers *)

(** The largest delay of the platform's timers, a signed 32-bit number
    of milliseconds. *)
Definition TIMEOUT_MAX : N := 2147483647.

(** The delay a timer is set with: a delay below one millisecond, or
    above [TIMEOUT_MAX], counts as one millisecond. *)
Definition timer_delay (delay : N) : N :=
  if (delay <? 1) || (TIMEOUT_MAX <? delay) then 1 else delay.

(** The table is kept in the order the timers were set, or set again:
    timers due at the same instant fire in this order. *)
Definition schedule (a : callback) (delay : N) (every : option N) (s : State)
  : handle * State :=
  let h := nextHandle s in
  let t := {| id := h; due := now s + timer_delay delay;
              every := every; action := a |} in
  (h, set_timers (h + 1) (timers s ++ [t])%list s).

Definition setInterval (a : callback) (delay : N) (s : State) : handle * State :=
  schedule a delay (Some (timer_delay delay)) s.

Definition setTimeout (a : callback) (delay : N) (s : State) : handle * State :=
  schedule a delay None s.

(** [clearInterval] and [clearTimeout]: an unknown handle is ignored. *)
Definition clearInterval (h : handle) (s : State) : State :=
  set_timers (nextHandle s) (List.filter (fun t => negb (id t =? h)) (timers s)) s.

(** *** The session *)

Section Session.
(** The arguments of [setupAutoRefresh]: whether [widget] is an element
    (or null), and the options. *)
Variable widget : bool.
Variable options : AutoRefreshOptions.

Definition refreshInterval' : N :=
  default DEFAULT_REFRESH_INTERVAL (refreshInterval options).

Definition cleanup (s : State) : State :=
  if isCleanedUp s then s
  else
    let s := set_isCleanedUp true s in
    let s :=
      match turnstileResetInterval s with
      | Some h => set_turnstileResetInterval None (clearInterval h s)
      | None => s
      end in
    match checkWidgetInterval s with
    | Some h => set_checkWidgetInterval None (clearInterval h s)
    | None => s
    end.

(** The callback of the recurring reset timer. A missing
    [window.turnstile] makes the call throw inside the [try]. *)
Definition resetWidget (widgetId : string) (s : State) : State :=
  let failed s :=
    let s := record (Warned (now s)) s in
    if onError options then record (Failed (now s)) s else s in
  match turnstile s with
  | Some api =>
      let s := record (ResetCalled (now s) widgetId) s in
      if reset_throws api widgetId then failed s
      else if onRefresh options then record (Refreshed (now s)) s else s
  | None => failed s
  end.

(** The callback of the initialization poll. *)
Definition checkWidget (s : State) : State :=
  let widgetId := widgetIdAttr s in
  if Js.truthy_str widgetId then
    let s :=
      match checkWidgetInterval s with
      | Some h => set_checkWidgetInterval None (clearInterval h s)
      | None => s
      end in
    let '(h, s) := setInterval (ResetWidget (default "" widgetId)) refreshInterval' s in
    set_turnstileResetInterval (Some h) s
  else s.

Definition checkWidgetExpiry (s : State) : State :=
  match checkWidgetInterval s with
  | Some h => set_checkWidgetInterval None (clearInterval h s)
  | None => s
  end.

Definition setupReset (s : State) : State :=
  if negb widget || negb (bool_decide (is_Some (turnstile s))) then s
  else
    let '(h, s) := setInterval CheckWidget WIDGET_CHECK_INTERVAL s in
    let s := set_checkWidgetInterval (Some h) s in
    snd (setTimeout CheckWidgetExpiry WIDGET_INIT_TIMEOUT s).

Definition loadHandler (s : State) : State :=
  snd (setTimeout DelayedSetupReset 500 s).

(** The callback of the script poll; [checkScript] is its own handle. *)
Definition checkScript (checkScript : handle) (s : State) : State :=
  if bool_decide (is_Some (turnstile s)) then
    setupReset (clearInterval checkScript s)
  else s.

(** [setupAutoRefresh(widget, options)] called in page state [page]: the
    state when it returns. The returned function is [cleanup]. *)
Definition setupAutoRefresh (page : State) : State :=
  let s := set_turnstileResetInterval None page in
  let s := set_checkWidgetInterval None s in
  let s := set_isCleanedUp false s in
  let s := set_listeners (loadListener s) true s in
  if bool_decide (is_Some (turnstile s)) then setupReset s
  else
    let s := set_listeners true (unloadListener s) s in
    let '(h, s) := setInterval CheckScript 100 s in
    snd (setTimeout (CheckScriptExpiry h) 5000 s).

(** *** The event loop *)

Definition run_callback (self : handle) (a : callback) (s : State) : State :=
  match a with
  | CheckWidget => checkWidget s
  | ResetWidget widgetId => resetWidget widgetId s
  | CheckWidgetExpiry => checkWidgetExpiry s
  | DelayedSetupReset => setupReset s
  | CheckScript => checkScript self s
  | CheckScriptExpiry h => clearInterval h s
  end.

(** An interval that fires is set again one period later, behind the
    timers set before this instant. *)
Definition reschedule (h : handle) (p : N) (s : State) : State :=
  set_timers (nextHandle s)
    (List.filter (fun t => negb (id t =? h)) (timers s)
     ++ map (fun t => {| id := h; due := now s + p; every := every t;
                         action := action t |})
            (List.filter (fun t => id t =? h) (timers s)))%list s.

(** Fire timer [h] if it is still set and due now: an interval is set
    again one period later, a timeout is removed, then the callback runs
    (a cleared timer does not fire). *)
Definition fire (s : State) (h : handle) : State :=
  match find (fun t => id t =? h) (timers s) with
  | Some t =>
      if due t =? now s then
        let s :=
          match every t with
          | Some p => reschedule h p s
          | None => clearInterval h s
          end in
        run_callback h (action t) s
      else s
  | None => s
  end.

Definition due_now (s : State) : list handle :=
  map id (List.filter (fun t => due t =? now s) (timers s)).

(** One millisecond passes: the timers due at the new instant fire, in
    the order of the table. *)
Definition tick (s : State) : State :=
  let s := set_now (now s + 1) s in
  fold_left fire (due_now s) s.

Definition advance (ms : N) (s : State) : State := N.iter ms tick s.

(** What can happen to a session after [setupAutoRefresh] returned. *)
Inductive step : Type :=
| Wait (ms : N)                        (* time passes *)
| Teardown                             (* the returned function is called *)
| Load                                 (* the page's load event *)
| BeforeUnload                         (* the page's beforeunload event *)
| ScriptLoaded (api : TurnstileAPI)    (* window.turnstile appears *)
| WidgetRendered (widgetId : string)   (* the vendor sets data-widget-id *).

Definition do_step (s : State) (a : step) : State :=
  match a with
  | Wait ms => advance ms s
  | Teardown => cleanup s
  | Load => if loadListener s then loadHandler s else s
  | BeforeUnload => if unloadListener s then cleanup s else s
  | ScriptLoaded api => set_environment (Some api) (widgetIdAttr s) s
  | WidgetRendered widgetId => set_environment (turnstile s) (Some widgetId) s
  end.

Definition run (steps : list step) (s : State) : State :=
  fold_left do_step steps s.

End Session.

(** A fresh page at time 0. *)
Definition page (api : option TurnstileAPI) (widgetId : option string) : State :=
  {| turnstileResetInterval := None; checkWidgetInterval := None;
     isCleanedUp := false; now := 0; nextHandle := 1; timers := [];
     loadListener := false; unloadListener := false;
     turnstile := api; widgetIdAttr := widgetId; trace := [] |}.

(** *** Observations *)

Definition is_poll (t : timer) : bool :=
  match action t with CheckWidget => true | _ => false end.

Definition is_reset (t : timer) : bool :=
  match action t with ResetWidget _ => true | _ => false end.

(** The number of active initialization-poll timers, and of active
    recurring reset timers. *)
Definition active_polls (s : State) : nat := List.length (List.filter is_poll (timers s)).
Definition active_resets (s : State) : nat := List.length (List.filter is_reset (timers s)).

(** [f] does not write [isCleanedUp]. *)
Definition keeps_flag (f : State → State) : Prop :=
  ∀ s, isCleanedUp (f s) = isCleanedUp s.

(** The timers a session creates once [setupReset] runs. *)
Definition session_timer (t : timer) : bool :=
  match action t with
  | CheckWidget | ResetWidget _ | CheckWidgetExpiry => true
  | _ => false
  end.

(** The shape of a session in which [setupReset] ran once, from
    [setupAutoRefresh] itself: nothing is left that could run it again,
    every initialization poll is the one [checkWidgetInterval] names,
    every reset timer is the one [turnstileResetInterval] names, at most
    one of the two kinds of timer is active, and none after teardown. *)
Definition tidy (s : State) : Prop :=
  loadListener s = false ∧
  (∀ t, In t (timers s) → session_timer t = true) ∧
  (∀ t, In t (timers s) → is_poll t = true → checkWidgetInterval s = Some (id t)) ∧
  (∀ t, In t (timers s) → is_reset t = true →
        turnstileResetInterval s = Some (id t)) ∧
  (active_polls s + active_resets s ≤ 1)%nat ∧
  (isCleanedUp s = true → (active_polls s + active_resets s = 0)%nat).

Definition is_reset_call (e : event) : bool :=
  match e with ResetCalled _ _ => true | _ => false end.

Definition reset_calls (s : State) : list event :=
  List.filter is_reset_call (trace s).

End Refresh.

(* ===================================================================== *)
(** ** src/turnstile-client.ts: site keys                                *)
(* ===================================================================== *)

Module Client.

Definition TURNSTILE_TEST_SITE_KEY : string := "1x00000000000000000000AA".
Definition TURNSTILE_TEST_SECRET_KEY : string := "1x0000000000000000000000000000000AA".

(** One white space or line terminator of ECMAScript at the head of the
    text, as UTF-8: TAB, LF, VT, FF, CR, SP, U+00A0, U+1680,
    U+2000..U+200A, U+2028, U+2029, U+202F, U+205F, U+3000, U+FEFF.
    The rest of the text when there is one. *)
Definition white_space (s : string) : option string :=
  match s with
  | EmptyString => None
  | String c rest =>
      let n := N_of_ascii c in
      if (((9 <=? n) && (n <=? 13)) || (n =? 32))%N then Some rest
      else
        match rest with
        | String c1 rest1 =>
            let n1 := N_of_ascii c1 in
            if ((n =? 194) && (n1 =? 160))%N then Some rest1
            else
              match rest1 with
              | String c2 rest2 =>
                  let n2 := N_of_ascii c2 in
                  if ((n =? 225) && (n1 =? 154) && (n2 =? 128))%N then Some rest2
                  else if ((n =? 226) && (n1 =? 128) &&
                           (((128 <=? n2) && (n2 <=? 138)) || (n2 =? 168) ||
                            (n2 =? 169) || (n2 =? 175)))%N then Some rest2
                  else if ((n =? 226) && (n1 =? 129) && (n2 =? 159))%N then Some rest2
                  else if ((n =? 227) && (n1 =? 128) && (n2 =? 128))%N then Some rest2
                  else if ((n =? 239) && (n1 =? 187) && (n2 =? 191))%N then Some rest2
                  else None
              | EmptyString => None
              end
        | EmptyString => None
        end
  end.

Fixpoint trimStart_from (fuel : nat) (s : string) : string :=
  match fuel with
  | O => s
  | S fuel' =>
      match white_space s with
      | Some rest => trimStart_from fuel' rest
      | None => s
      end
  end.

(** [String.prototype.trimStart] *)
Definition trimStart (s : string) : string := trimStart_from (String.length s) s.

(** The text is white space only. *)
Definition blank (s : string) : bool := trimStart s =? "".

(** [String.prototype.trimEnd] *)
Fixpoint trimEnd (s : string) : string :=
  match s with
  | EmptyString => EmptyString
  | String c rest => if blank s then EmptyString else String c (trimEnd rest)
  end.

(** [String.prototype.trim] *)
Definition trim (s : string) : string := trimEnd (trimStart s).

(** [isTestSiteKey(siteKey)] *)
Definition isTestSiteKey (siteKey : string) : bool :=
  (siteKey =? TURNSTILE_TEST_SITE_KEY)
  || negb (Js.truthy_str (Some siteKey))
  || (trim siteKey =? "").

(** [getSiteKey(siteKey?, forceTest = false)]; [None] is an omitted,
    undefined or null key. *)
Definition getSiteKey (siteKey : option string) (forceTest : bool) : string :=
  if forceTest || negb (Js.truthy_str siteKey) || (trim (default "" siteKey) =? "")
  then TURNSTILE_TEST_SITE_KEY
  else default "" siteKey.

End Client.

(* ===================================================================== *)
(** ** Shapes of a refresh session                                       *)
(* ===================================================================== *)

Module Shapes.
Import Refresh.
Local Open Scope N_scope.

Definition is_load (a : step) : bool :=
  match a with Load => true | _ => false end.

(** The timers of the wait for the vendor script. *)
Definition script_timer (t : timer) : bool :=
  match action t with
  | CheckScript | CheckScriptExpiry _ | DelayedSetupReset => true
  | _ => false
  end.

(** A session that has set no initialization poll and no reset timer,
    and has done nothing yet. *)
Definition waiting (s : State) : Prop :=
  (∀ t, In t (timers s) → script_timer t = true) ∧
  turnstileResetInterval s = None ∧
  checkWidgetInterval s = None ∧
  trace s = [].

(** The wait for the vendor script. [script_expiry] is the timeout that
    ends it, set by [setupAutoRefresh] on a fresh page right after the
    script poll, whose handle is 1. *)
Definition is_script_loaded (a : step) : bool :=
  match a with ScriptLoaded _ => true | _ => false end.

Definition script_expiry : timer :=
  {| id := 2; due := 5000; every := None; action := CheckScriptExpiry 1 |}.

Definition script_poll (t : timer) : Prop :=
  t = script_expiry ∨ (id t = 1 ∧ action t = CheckScript).

(** The script is not there, nothing was done yet, and the timer table
    holds at most the script poll and its expiry. *)
Definition polling (s : State) : Prop :=
  turnstile s = None ∧
  turnstileResetInterval s = None ∧
  checkWidgetInterval s = None ∧
  trace s = [] ∧
  (∀ t, In t (timers s) → script_poll t).

(** Between two instants: the expiry is pending during the first five
    seconds, and no timer is left from then on. *)
Definition awaiting_script (s : State) : Prop :=
  polling s ∧
  (now s < 5000 → In script_expiry (timers s)) ∧
  (5000 ≤ now s → timers s = []).

(** A reset callback holds a non-empty identifier; a recorded reset call
    was made with one. *)
Definition names_widget (a : callback) : bool :=
  match a with
  | ResetWidget widgetId => negb (widgetId =? "")%string
  | _ => true
  end.

Definition reset_named (e : event) : bool :=
  match e with
  | ResetCalled _ widgetId => negb (widgetId =? "")%string
  | _ => true
  end.

Definition well_named (s : State) : Prop :=
  (∀ t, In t (timers s) → names_widget (action t) = true) ∧
  (∀ e, In e (trace s) → reset_named e = true).




End Shapes.

(* ===================================================================== *)
(** ** Sample inputs                                                     *)
(* ===================================================================== *)

Module Samples.
Import Js.

(** The reference platform; its multipart parser reports an error on
    every input (no sample below is multipart). *)
Definition node : Platform := Node.platform (fun _ _ => BusboyError).

(** A platform whose multipart parser finishes with the given fields. *)
Definition node_with_fields (fields : list (string * string)) : Platform :=
  Node.platform (fun _ _ => BusboyFinish fields).

Definition event (h : gmap string string) (b : string) (base64 : bool)
  : Extract.HandlerEvent :=
  {| Extract.headers := Some h; Extract.body := Some b;
     Extract.isBase64Encoded := base64 |}.

(** [{"<key>":"<value>"}] *)
Definition json_object1 (key value : string) : string :=
  "{" +:+ Node.quoted key +:+ ":" +:+ Node.quoted value +:+ "}".

Definition json_headers : gmap string string :=
  {[ "content-type" := "application/json" ]}.
Definition form_headers : gmap string string :=
  {[ "content-type" := "application/x-www-form-urlencoded" ]}.
Definition multipart_headers : gmap string string :=
  {[ "content-type" := "multipart/form-data; boundary=x" ]}.

(** The outbound request of a call whose token and secret are truthy. *)
Definition request_of (token secretKey remoteIp : option string) : Verify.Request :=
  {| Verify.url := Verify.siteverify;
     Verify.method := "POST";
     Verify.form :=
       ([("secret", default "" secretKey); ("response", default "" token)]
        ++ (if truthy_str remoteIp then [("remoteip", default "" remoteIp)]
            else []))%list;
     Verify.content_type := "application/x-www-form-urlencoded" |}.

Definition sent (w : Verify.World) (r : Verify.Request) : Verify.World :=
  {| Verify.console := Verify.console w;
     Verify.requests := (Verify.requests w ++ [r])%list |}.

Definition logged (w : Verify.World) (e : Verify.console_entry) : Verify.World :=
  {| Verify.console := (Verify.console w ++ [e])%list;
     Verify.requests := Verify.requests w |}.

(** A remote end that answers every request the same way. *)
Definition always (o : Verify.fetch_outcome) : Verify.Request → Verify.fetch_outcome :=
  λ _, o.

Definition answer (ok : bool) (status : N) (data : option Js.json)
  : Verify.fetch_outcome :=
  Verify.FetchResolves
    {| Verify.ok := ok; Verify.status := status; Verify.statusText := "";
       Verify.json := data |}.

(** A rendering API whose [reset] never throws, and the options of the
    repository's refresh tests. *)
Definition api : Refresh.TurnstileAPI := {| Refresh.reset_throws := λ _, false |}.

Definition every_second : Refresh.AutoRefreshOptions :=
  {| Refresh.refreshInterval := Some 1000%N; Refresh.onRefresh := false;
     Refresh.onError := false |}.

(** [setupAutoRefresh(widget, {refreshInterval: 1000})] on a fresh page
    where the vendor script has not loaded yet. *)
Definition before_script : Refresh.State :=
  Refresh.setupAutoRefresh true (Refresh.page None None).

(** The same call on a page where the script has loaded and the widget
    carries its identifier. *)
Definition rendered : Refresh.State :=
  Refresh.setupAutoRefresh true (Refresh.page (Some api) (Some "widget-123")).

End Samples.

(* ===================================================================== *)
(** ** Token extraction: the repository's tests, and the claims          *)
(* ===================================================================== *)

Module ExtractFacts.
Import Js Extract Samples.

(** *** get-turnstile-token.test.js *)

Example test_header_lower :
  getTurnstileToken node
    {| headers := Some {[ "x-turnstile-token" := "header-token-123" ]};
       body := None; isBase64Encoded := false |}
  = Normal (JString "header-token-123").
Proof. vm_compute. reflexivity. Qed.

Example test_header_capitalised :
  getTurnstileToken node
    {| headers := Some {[ "X-Turnstile-Token" := "header-token-456" ]};
       body := None; isBase64Encoded := false |}
  = Normal (JString "header-token-456").
Proof. vm_compute. reflexivity. Qed.

Example test_form_urlencoded :
  getTurnstileToken node
    (event form_headers "cf-turnstile-response=form-token-123&other=value" false)
  = Normal (JString "form-token-123").
Proof. vm_compute. reflexivity. Qed.

Example test_json :
  getTurnstileToken node
    (event json_headers (json_object1 "cf-turnstile-response" "json-token-123") false)
  = Normal (JString "json-token-123").
Proof. vm_compute. reflexivity. Qed.

Example test_json_camelCase :
  getTurnstileToken node
    (event json_headers (json_object1 "cfTurnstileResponse" "camel-token-123") false)
  = Normal (JString "camel-token-123").
Proof. vm_compute. reflexivity. Qed.

Example test_base64_body :
  getTurnstileToken node
    (event form_headers "Y2YtdHVybnN0aWxlLXJlc3BvbnNlPWVuY29kZWQtdG9rZW4tMTIz" true)
  = Normal (JString "encoded-token-123").
Proof. vm_compute. reflexivity. Qed.

Example test_token_not_found :
  getTurnstileToken node (event json_headers (json_object1 "other" "value") false)
  = Normal JNull.
Proof. vm_compute. reflexivity. Qed.

Example test_unsupported_content_type :
  getTurnstileToken node
    (event {[ "content-type" := "text/plain" ]} "some content" false)
  = Normal JNull.
Proof. vm_compute. reflexivity. Qed.

Example test_empty_body :
  getTurnstileToken node (event json_headers "" false) = Normal JNull.
Proof. vm_compute. reflexivity. Qed.

Example test_empty_headers :
  getTurnstileToken node (event ∅ "" false) = Normal JNull.
Proof. vm_compute. reflexivity. Qed.

(** *** Helper lemmas *)

Lemma truthy_str_Some (v : string) : v ≠ "" → truthy_str (Some v) = true.
Proof.
  intros Hv. unfold truthy_str.
  destruct (String.eqb_spec v ""); [contradiction | reflexivity].
Qed.

Lemma truthy_str_true (o : option string) :
  truthy_str o = true → ∃ v, o = Some v ∧ v ≠ "".
Proof.
  destruct o as [v|]; simpl; [|discriminate].
  destruct (String.eqb_spec v ""); [discriminate|]. eauto.
Qed.

(** The multipart listener keeps the value of the last field of the
    name. *)
Lemma fold_on_field (fields : list (string * string)) (token : json) :
  fold_left on_field fields token =
  match params_get "cf-turnstile-response" (rev fields) with
  | Some v => JString v
  | None => token
  end.
Proof.
  revert token. induction fields as [|[name value] fields IH]; intros token.
  - reflexivity.
  - cbn [fold_left rev]. rewrite IH. clear IH.
    assert (Hget : ∀ l k (x : string * string),
               params_get k (l ++ [x])%list =
               match params_get k l with
               | Some v => Some v
               | None => if fst x =? k then Some (snd x) else None
               end).
    { clear. induction l as [|[k' v'] l IH]; intros k [xk xv]; cbn.
      - reflexivity.
      - destruct (k' =? k); [reflexivity | apply IH]. }
    rewrite Hget. cbn [fst snd].
    destruct (params_get "cf-turnstile-response" (rev fields)); [reflexivity|].
    unfold on_field. cbn [fst snd]. destruct (name =? _); reflexivity.
Qed.

Lemma lower_name_not_content_type (k : string) :
  toLowerCase k = "x-turnstile-token" → k ≠ "content-type" ∧ k ≠ "Content-Type".
Proof. intros Hk. split; intros ->; vm_compute in Hk; discriminate. Qed.

(** Deleting a header of the token's name that holds the empty string
    does not change what the two header reads amount to. *)
Lemma header_token_delete_empty (h : gmap string string) (k : string) :
  toLowerCase k = "x-turnstile-token" → h !! k = Some "" →
  truthy_str (header_token (delete k h)) = truthy_str (header_token h) ∧
  (truthy_str (header_token h) = true →
   header_token (delete k h) = header_token h).
Proof.
  intros Hk Hempty. unfold header_token, or_str.
  destruct (decide (k = "x-turnstile-token")) as [->|Hlow].
  - rewrite lookup_delete_eq, Hempty. cbn.
    rewrite lookup_delete_ne by discriminate. auto.
  - rewrite (lookup_delete_ne h k "x-turnstile-token") by exact Hlow.
    destruct (truthy_str (h !! "x-turnstile-token")) eqn:Hl; [auto|].
    destruct (decide (k = "X-Turnstile-Token")) as [->|Hcap].
    + rewrite lookup_delete_eq, Hempty. cbn. split; [reflexivity | discriminate].
    + rewrite lookup_delete_ne by exact Hcap. auto.
Qed.

Lemma content_type_delete (h : gmap string string) (k : string) :
  toLowerCase k = "x-turnstile-token" → content_type (delete k h) = content_type h.
Proof.
  intros Hk. destruct (lower_name_not_content_type k Hk) as [H1 H2].
  unfold content_type. rewrite !lookup_delete_ne by assumption. reflexivity.
Qed.

(** A header of the token's name, under any casing, whose value is the
    empty string changes nothing: extraction settles as for the same
    event with that header removed. *)
Lemma empty_token_header_as_absent (P : Platform) (h : gmap string string)
    (k : string) (b : option string) (base64 : bool) :
  toLowerCase k = "x-turnstile-token" →
  h !! k = Some "" →
  getTurnstileToken P {| headers := Some h; body := b; isBase64Encoded := base64 |}
  = getTurnstileToken P
      {| headers := Some (delete k h); body := b; isBase64Encoded := base64 |}.
Proof.
  intros Hk Hempty.
  destruct (header_token_delete_empty h k Hk Hempty) as [Htruthy Hsame].
  unfold getTurnstileToken. cbn [headers from_option id]. cbv zeta.
  rewrite Htruthy.
  destruct (truthy_str (header_token h)) eqn:Htok.
  - rewrite (Hsame eq_refl). reflexivity.
  - rewrite (content_type_delete h k Hk). reflexivity.
Qed.

(** Without a non-empty token header the content type selects the
    branch. *)
Lemma body_inspection (P : Platform) (ev : HandlerEvent) (h : gmap string string) :
  headers ev = Some h →
  truthy_str (header_token h) = false →
  getTurnstileToken P ev =
  if includes (content_type h) "multipart/form-data" then
    parseMultipart P ev (content_type h)
  else if includes (content_type h) "application/x-www-form-urlencoded" then
    Normal (str_value (params_get "cf-turnstile-response"
                                  (URLSearchParams P (getTextBody P ev))))
  else if includes (content_type h) "application/json" then
    try_catch (json_branch P ev) (λ _, Normal JNull)
  else Normal JNull.
Proof.
  intros Hh Htok. unfold getTurnstileToken.
  rewrite Hh. cbn [from_option id]. cbv zeta. rewrite Htok. reflexivity.
Qed.

(** The JSON branch on an object payload with a truthy token member. *)
Lemma json_branch_member (P : Platform) (ev : HandlerEvent)
    (ms : list (string * json)) (v : json) :
  JSON_parse P (getTextBody P ev) = Some (JObject ms) →
  truthy v = true →
  member "cf-turnstile-response" ms = Some v ∨
  (from_option truthy false (member "cf-turnstile-response" ms) = false ∧
   member "cfTurnstileResponse" ms = Some v) →
  try_catch (json_branch P ev) (λ _, Normal JNull) = Normal v.
Proof.
  intros Hparse Hv Hcase. unfold json_branch. rewrite Hparse. cbn.
  destruct Hcase as [Hkebab | [Hfalsy Hcamel]].
  - rewrite Hkebab. cbn. rewrite Hv. reflexivity.
  - destruct (member "cf-turnstile-response" ms) as [v1|]; cbn in Hfalsy |- *.
    + rewrite Hfalsy, Hcamel. cbn. rewrite Hv. reflexivity.
    + rewrite Hcamel. cbn. rewrite Hv. reflexivity.
Qed.

(** *** The claims *)

(** C3 (the code departs from the claim): when the event has no [headers]
    object, the token-header reads are tolerated through the defaulted
    object, but the content-type read is made on [event.headers] itself
    and throws: the promise rejects with a TypeError instead of resolving
    to null, for every body and base64 flag. *)
Theorem absent_headers_reject (P : Platform) (b : option string) (base64 : bool) :
  getTurnstileToken P {| headers := None; body := b; isBase64Encoded := base64 |}
  = Throw TypeError.
Proof. reflexivity. Qed.

(** C7, as stated, fails: a header named x-turnstile-token under a casing
    other than the two the code reads is not returned. *)
Lemma header_other_casing_ignored :
  ¬ (∀ (P : Platform) (ev : HandlerEvent) (h : gmap string string) (k v : string),
       headers ev = Some h →
       toLowerCase k = "x-turnstile-token" →
       h !! k = Some v →
       getTurnstileToken P ev = Normal (JString v)).
Proof.
  intros H.
  specialize (H node
                {| headers := Some {[ "X-TURNSTILE-TOKEN" := "tok" ]};
                   body := None; isBase64Encoded := false |}
                {[ "X-TURNSTILE-TOKEN" := "tok" ]} "X-TURNSTILE-TOKEN" "tok"
                eq_refl eq_refl eq_refl).
  vm_compute in H. discriminate H.
Qed.

(** C7, amended: when the headers hold a non-empty value under the key
    [x-turnstile-token], or else under [X-Turnstile-Token] (the two
    spellings the code reads, in this order), extraction resolves to that
    value whatever the platform's parsers, the body, the base64 flag and
    the content type are. *)
Theorem header_token_short_circuits (P : Platform) (ev : HandlerEvent)
    (h : gmap string string) (v : string) :
  headers ev = Some h →
  v ≠ "" →
  (h !! "x-turnstile-token" = Some v ∨
   (truthy_str (h !! "x-turnstile-token") = false ∧
    h !! "X-Turnstile-Token" = Some v)) →
  getTurnstileToken P ev = Normal (JString v).
Proof.
  intros Hh Hv Hcase. unfold getTurnstileToken. rewrite Hh. cbn [from_option id]. cbv zeta.
  assert (Htok : header_token h = Some v).
  { unfold header_token, or_str.
    destruct Hcase as [Hlow | [Hlow Hcap]].
    - rewrite Hlow, (truthy_str_Some v Hv). reflexivity.
    - rewrite Hlow. exact Hcap. }
  rewrite Htok, (truthy_str_Some v Hv). reflexivity.
Qed.

Lemma header_token_short_circuits_witness :
  getTurnstileToken node
    (event {[ "X-Turnstile-Token" := "tok";
              "content-type" := "application/json" ]}
           (json_object1 "cf-turnstile-response" "body-token") false)
  = Normal (JString "tok").
Proof.
  apply (header_token_short_circuits node _
           {[ "X-Turnstile-Token" := "tok"; "content-type" := "application/json" ]}
           "tok").
  - reflexivity.
  - discriminate.
  - right. split; reflexivity.
Defined.

(** C10, as stated, fails: an empty value under x-turnstile-token does
    not make extraction go on to the body when the other spelling the
    code reads, X-Turnstile-Token, holds a value; that value is returned
    and the token in the body is not. *)
Lemma empty_header_other_spelling_wins :
  ¬ (∀ (P : Platform) (ev : HandlerEvent) (h : gmap string string) (v : string),
       headers ev = Some h →
       h !! "x-turnstile-token" = Some "" →
       includes (content_type h) "multipart/form-data" = false →
       includes (content_type h) "application/x-www-form-urlencoded" = true →
       params_get "cf-turnstile-response" (URLSearchParams P (getTextBody P ev))
       = Some v →
       getTurnstileToken P ev = Normal (JString v)).
Proof.
  intros H.
  specialize (H node
                (event {[ "x-turnstile-token" := "";
                          "X-Turnstile-Token" := "cap";
                          "content-type" := "application/x-www-form-urlencoded" ]}
                       "cf-turnstile-response=body-token" false)
                {[ "x-turnstile-token" := "";
                   "X-Turnstile-Token" := "cap";
                   "content-type" := "application/x-www-form-urlencoded" ]}
                "body-token"
                eq_refl eq_refl eq_refl eq_refl eq_refl).
  vm_compute in H. discriminate H.
Qed.

(** C10, amended. When the headers hold the empty string under a name
    that is x-turnstile-token in some casing, and neither of the two
    spellings the code reads holds a non-empty value, extraction does not
    short-circuit. It settles as for the same event with that header
    removed, and a token present in the body is what it resolves to, with
    [ct] the content type:
    - multipart: the value of the last field named cf-turnstile-response
      that the multipart parser emitted;
    - urlencoded: the first value under cf-turnstile-response;
    - JSON: the member cf-turnstile-response of the object payload when
      it is truthy, else the member cfTurnstileResponse when it is
      truthy. *)
Theorem empty_header_token_falls_through (P : Platform) (ev : HandlerEvent)
    (h : gmap string string) (k : string) :
  headers ev = Some h →
  toLowerCase k = "x-turnstile-token" →
  h !! k = Some "" →
  truthy_str (h !! "x-turnstile-token") = false →
  truthy_str (h !! "X-Turnstile-Token") = false →
  let ct := content_type h in
  let result := getTurnstileToken P ev in
  let text := getTextBody P ev in
  result = getTurnstileToken P
             {| headers := Some (delete k h); body := body ev;
                isBase64Encoded := isBase64Encoded ev |} ∧
  (includes ct "multipart/form-data" = true →
   ∀ fields v,
     busboy P ct (getBodyBuffer P ev) = BusboyFinish fields →
     params_get "cf-turnstile-response" (rev fields) = Some v →
     result = Normal (JString v)) ∧
  (includes ct "multipart/form-data" = false →
   includes ct "application/x-www-form-urlencoded" = true →
   ∀ v,
     params_get "cf-turnstile-response" (URLSearchParams P text) = Some v →
     result = Normal (JString v)) ∧
  (includes ct "multipart/form-data" = false →
   includes ct "application/x-www-form-urlencoded" = false →
   includes ct "application/json" = true →
   ∀ ms v,
     JSON_parse P text = Some (JObject ms) →
     truthy v = true →
     member "cf-turnstile-response" ms = Some v ∨
     (from_option truthy false (member "cf-turnstile-response" ms) = false ∧
      member "cfTurnstileResponse" ms = Some v) →
     result = Normal v).
Proof.
  intros Hh Hk Hempty Hlow Hcap ct result text.
  assert (Htok : truthy_str (header_token h) = false).
  { unfold header_token, or_str. rewrite Hlow. exact Hcap. }
  pose proof (body_inspection P ev h Hh Htok) as Hresult.
  fold ct result text in Hresult.
  split; [|split; [|split]].
  - subst result. destruct ev as [hs b base64]. cbn in Hh. subst hs.
    apply empty_token_header_as_absent; assumption.
  - intros Hm fields v Hbusboy Hlast. rewrite Hresult, Hm.
    unfold parseMultipart. rewrite Hbusboy, fold_on_field, Hlast. reflexivity.
  - intros Hm Hu v Hfirst. rewrite Hresult, Hm, Hu, Hfirst. reflexivity.
  - intros Hm Hu Hj ms v Hparse Hv Hcase. rewrite Hresult, Hm, Hu, Hj.
    apply (json_branch_member P ev ms v Hparse Hv Hcase).
Qed.

(** At events whose only token header is empty, the token of a
    urlencoded body, of a JSON body and of a multipart body. *)
Lemma empty_header_token_falls_through_witness :
  getTurnstileToken node
    (event {[ "x-turnstile-token" := "";
              "content-type" := "application/x-www-form-urlencoded" ]}
           "cf-turnstile-response=body-token" false)
  = Normal (JString "body-token")
  ∧ getTurnstileToken node
      (event {[ "X-Turnstile-Token" := ""; "content-type" := "application/json" ]}
             (json_object1 "cf-turnstile-response" "body-token") false)
    = Normal (JString "body-token")
  ∧ getTurnstileToken (node_with_fields [("cf-turnstile-response", "body-token")])
      (event {[ "X-TURNSTILE-TOKEN" := "";
                "content-type" := "multipart/form-data; boundary=x" ]}
             "body" false)
    = Normal (JString "body-token").
Proof.
  split; [|split].
  - destruct (empty_header_token_falls_through node
                (event {[ "x-turnstile-token" := "";
                          "content-type" := "application/x-www-form-urlencoded" ]}
                       "cf-turnstile-response=body-token" false)
                {[ "x-turnstile-token" := "";
                   "content-type" := "application/x-www-form-urlencoded" ]}
                "x-turnstile-token")
      as (_ & _ & Hform & _); [vm_compute; reflexivity ..|].
    exact (Hform eq_refl eq_refl "body-token" eq_refl).
  - destruct (empty_header_token_falls_through node
                (event {[ "X-Turnstile-Token" := "";
                          "content-type" := "application/json" ]}
                       (json_object1 "cf-turnstile-response" "body-token") false)
                {[ "X-Turnstile-Token" := ""; "content-type" := "application/json" ]}
                "X-Turnstile-Token")
      as (_ & _ & _ & Hjson); [vm_compute; reflexivity ..|].
    exact (Hjson eq_refl eq_refl eq_refl
             [("cf-turnstile-response", JString "body-token")]
             (JString "body-token") eq_refl eq_refl (or_introl eq_refl)).
  - destruct (empty_header_token_falls_through
                (node_with_fields [("cf-turnstile-response", "body-token")])
                (event {[ "X-TURNSTILE-TOKEN" := "";
                          "content-type" := "multipart/form-data; boundary=x" ]}
                       "body" false)
                {[ "X-TURNSTILE-TOKEN" := "";
                   "content-type" := "multipart/form-data; boundary=x" ]}
                "X-TURNSTILE-TOKEN")
      as (_ & Hmultipart & _); [vm_compute; reflexivity ..|].
    exact (Hmultipart eq_refl [("cf-turnstile-response", "body-token")]
             "body-token" eq_refl eq_refl).
Defined.

(** C6, as stated, fails for JSON: a submitted value that is the empty
    string is not returned; extraction resolves to null (or to the
    camelCase member) instead. *)
Lemma json_empty_value_not_returned :
  ¬ (∀ (P : Platform) (ev : HandlerEvent) (h : gmap string string)
       (ms : list (string * json)) (v : json),
       headers ev = Some h →
       truthy_str (header_token h) = false →
       includes (content_type h) "application/json" = true →
       JSON_parse P (getTextBody P ev) = Some (JObject ms) →
       member "cf-turnstile-response" ms = Some v →
       getTurnstileToken P ev = Normal v).
Proof.
  intros H.
  specialize (H node
                (event json_headers (json_object1 "cf-turnstile-response" "") false)
                json_headers
                [("cf-turnstile-response", JString "")] (JString "")
                eq_refl eq_refl eq_refl eq_refl eq_refl).
  vm_compute in H. discriminate H.
Qed.

(** C6, amended. For an event whose headers object is present and holds
    no non-empty token header, with [ct] its content type:
    - multipart: the value of the last field named cf-turnstile-response
      that the multipart parser emitted (null when there is none); a
      parser error rejects;
    - urlencoded: the exact first value under cf-turnstile-response, or
      null when the key is absent;
    - JSON: the member cf-turnstile-response when it is truthy, else the
      member cfTurnstileResponse when it is truthy, else null; null too
      when the payload is not an object or the parse fails;
    - any other or missing content type: null;
    - a missing or empty body is decoded as the empty text, which gives
      null for urlencoded and JSON on a platform that parses the empty
      text to no pairs and to a syntax error. *)
Theorem body_token_extraction (P : Platform) (ev : HandlerEvent)
    (h : gmap string string) :
  headers ev = Some h →
  truthy_str (header_token h) = false →
  let ct := content_type h in
  let result := getTurnstileToken P ev in
  let text := getTextBody P ev in
  (includes ct "multipart/form-data" = true →
     (∀ fields, busboy P ct (getBodyBuffer P ev) = BusboyFinish fields →
        result = Normal (str_value
                           (params_get "cf-turnstile-response" (rev fields)))) ∧
     (busboy P ct (getBodyBuffer P ev) = BusboyError →
        result = Throw LibraryError)) ∧
  (includes ct "multipart/form-data" = false →
   includes ct "application/x-www-form-urlencoded" = true →
     result = Normal (str_value
                        (params_get "cf-turnstile-response"
                                    (URLSearchParams P text)))) ∧
  (includes ct "multipart/form-data" = false →
   includes ct "application/x-www-form-urlencoded" = false →
   includes ct "application/json" = true →
     (JSON_parse P text = None → result = Normal JNull) ∧
     (∀ payload, JSON_parse P text = Some payload →
        match payload with
        | JObject ms =>
            let v1 := member "cf-turnstile-response" ms in
            let v2 := member "cfTurnstileResponse" ms in
            (∀ v, v1 = Some v → truthy v = true → result = Normal v) ∧
            (∀ v, from_option truthy false v1 = false →
                  v2 = Some v → truthy v = true → result = Normal v) ∧
            (from_option truthy false v1 = false →
             from_option truthy false v2 = false → result = Normal JNull)
        | _ => result = Normal JNull
        end)) ∧
  (includes ct "multipart/form-data" = false →
   includes ct "application/x-www-form-urlencoded" = false →
   includes ct "application/json" = false →
     result = Normal JNull) ∧
  (truthy_str (body ev) = false →
     text = "" ∧ getBodyBuffer P ev = "" ∧
     (includes ct "multipart/form-data" = false →
      includes ct "application/x-www-form-urlencoded" = true →
      URLSearchParams P "" = [] → result = Normal JNull) ∧
     (includes ct "multipart/form-data" = false →
      includes ct "application/x-www-form-urlencoded" = false →
      includes ct "application/json" = true →
      JSON_parse P "" = None → result = Normal JNull)).
Proof.
  intros Hh Htok ct result text.
  assert (Hresult : result =
    if includes ct "multipart/form-data" then parseMultipart P ev ct
    else if includes ct "application/x-www-form-urlencoded" then
      Normal (str_value (params_get "cf-turnstile-response" (URLSearchParams P text)))
    else if includes ct "application/json" then
      try_catch (json_branch P ev) (λ _, Normal JNull)
    else Normal JNull).
  { subst result ct text. unfold getTurnstileToken.
    rewrite Hh. cbn [from_option id]. cbv zeta. rewrite Htok. reflexivity. }
  assert (Hjson : ∀ payload, JSON_parse P text = Some payload →
            try_catch (json_branch P ev) (λ _, Normal JNull) =
            match payload with
            | JObject ms =>
                match member "cf-turnstile-response" ms with
                | Some v => if truthy v then Normal v else
                    match member "cfTurnstileResponse" ms with
                    | Some w => if truthy w then Normal w else Normal JNull
                    | None => Normal JNull
                    end
                | None =>
                    match member "cfTurnstileResponse" ms with
                    | Some w => if truthy w then Normal w else Normal JNull
                    | None => Normal JNull
                    end
                end
            | _ => Normal JNull
            end).
  { intros payload Hp. unfold json_branch. fold text. rewrite Hp.
    destruct payload as [| | | | |ms]; try reflexivity.
    cbn. destruct (member "cf-turnstile-response" ms) as [v|]; cbn.
    - destruct (truthy v); [reflexivity|].
      destruct (member "cfTurnstileResponse" ms) as [w|]; cbn;
        [destruct (truthy w)|]; reflexivity.
    - destruct (member "cfTurnstileResponse" ms) as [w|]; cbn;
        [destruct (truthy w)|]; reflexivity. }
  split; [|split; [|split; [|split]]].
  - intros Hm. rewrite Hresult, Hm. unfold parseMultipart. split.
    + intros fields Hbb. rewrite Hbb, fold_on_field.
      destruct (params_get _ (rev fields)); reflexivity.
    + intros Hbb. rewrite Hbb. reflexivity.
  - intros Hm Hu. rewrite Hresult, Hm, Hu. reflexivity.
  - intros Hm Hu Hj. rewrite Hresult, Hm, Hu, Hj. split.
    + intros Hp. unfold json_branch. fold text. rewrite Hp. reflexivity.
    + intros payload Hp. rewrite (Hjson payload Hp).
      destruct payload as [| | | | |ms]; try reflexivity.
      cbv zeta. split; [|split].
      * intros v -> Hv. rewrite Hv. reflexivity.
      * intros v Hfalsy -> Hv.
        destruct (member "cf-turnstile-response" ms) as [v1|]; cbn in Hfalsy.
        -- rewrite Hfalsy, Hv. reflexivity.
        -- rewrite Hv. reflexivity.
      * intros Hfalsy1 Hfalsy2.
        destruct (member "cf-turnstile-response" ms) as [v1|]; cbn in Hfalsy1;
          [rewrite Hfalsy1|];
          (destruct (member "cfTurnstileResponse" ms) as [v2|]; cbn in Hfalsy2;
           [rewrite Hfalsy2|]; reflexivity).
  - intros Hm Hu Hj. rewrite Hresult, Hm, Hu, Hj. reflexivity.
  - intros Hbody.
    assert (Htext : text = "")
      by (subst text; unfold getTextBody; rewrite Hbody; reflexivity).
    split; [exact Htext|].
    split; [unfold getBodyBuffer; rewrite Hbody; reflexivity|].
    split.
    + intros Hm Hu Hp. rewrite Hresult, Hm, Hu, Htext, Hp. reflexivity.
    + intros Hm Hu Hj Hp. rewrite Hresult, Hm, Hu, Hj. unfold json_branch.
      fold text. rewrite Htext, Hp. reflexivity.
Qed.

Lemma body_token_extraction_witness :
  getTurnstileToken
    (node_with_fields [("cf-turnstile-response", "first"); ("other", "value");
                       ("cf-turnstile-response", "last")])
    (event multipart_headers "body" false)
  = Normal (JString "last")
  ∧ getTurnstileToken node
      (event form_headers "cf-turnstile-response=&cf-turnstile-response=second" false)
    = Normal (JString "")
  ∧ getTurnstileToken node
      (event json_headers (json_object1 "cfTurnstileResponse" "camel") false)
    = Normal (JString "camel").
Proof.
  split; [|split].
  - destruct (body_token_extraction
                (node_with_fields [("cf-turnstile-response", "first");
                                   ("other", "value");
                                   ("cf-turnstile-response", "last")])
                (event multipart_headers "body" false)
                multipart_headers eq_refl eq_refl) as [Hmultipart _].
    destruct (Hmultipart eq_refl) as [Hfinish _].
    exact (Hfinish _ eq_refl).
  - destruct (body_token_extraction node
                (event form_headers
                       "cf-turnstile-response=&cf-turnstile-response=second" false)
                form_headers eq_refl eq_refl) as (_ & Hform & _).
    exact (Hform eq_refl eq_refl).
  - destruct (body_token_extraction node
                (event json_headers (json_object1 "cfTurnstileResponse" "camel") false)
                json_headers eq_refl eq_refl) as (_ & _ & Hjson & _).
    destruct (Hjson eq_refl eq_refl eq_refl) as [_ Hpayload].
    specialize (Hpayload (JObject [("cfTurnstileResponse", JString "camel")]) eq_refl).
    cbv zeta in Hpayload. destruct Hpayload as (_ & Hcamel & _).
    exact (Hcamel (JString "camel") eq_refl eq_refl eq_refl).
Defined.

End ExtractFacts.

(* ===================================================================== *)
(** ** Verification: the repository's tests, and the claims              *)
(* ===================================================================== *)

Module VerifyFacts.
Import Js Verify Samples.

(** *** verify-turnstile.test.js *)

Example test_valid_token :
  verifyTurnstile (always (answer true 200 (Some (JObject [("success", JBool true)]))))
    (Some "valid-token") (Some "secret-key") None quiet
  = (Normal {| success := true; error := None |},
     sent quiet (request_of (Some "valid-token") (Some "secret-key") None)).
Proof. reflexivity. Qed.

Example test_secret_missing :
  fst (verifyTurnstile (always FetchRejects) (Some "token") (Some "") None quiet)
  = Normal {| success := false;
              error := Some "Turnstile verification is not configured" |}.
Proof. reflexivity. Qed.

Example test_token_missing :
  fst (verifyTurnstile (always FetchRejects) (Some "") (Some "secret-key") None quiet)
  = Normal {| success := false; error := Some "Turnstile token is missing" |}.
Proof. reflexivity. Qed.

Example test_verification_fails :
  fst (verifyTurnstile
         (always (answer true 200
                    (Some (JObject [("success", JBool false);
                                    ("error-codes",
                                     JArray [JString "invalid-input-response"])]))))
         (Some "invalid-token") (Some "secret-key") None quiet)
  = Normal {| success := false;
              error := Some "Security verification failed. Please try again." |}.
Proof. reflexivity. Qed.

Example test_remote_ip_included :
  requests (snd (verifyTurnstile
                   (always (answer true 200 (Some (JObject [("success", JBool true)]))))
                   (Some "test-token-123") (Some "test-secret-456")
                   (Some "192.168.1.1") quiet))
  = [ {| url := "https://challenges.cloudflare.com/turnstile/v0/siteverify";
         method := "POST";
         form := [("secret", "test-secret-456"); ("response", "test-token-123");
                  ("remoteip", "192.168.1.1")];
         content_type := "application/x-www-form-urlencoded" |} ].
Proof. reflexivity. Qed.

Example test_remote_ip_omitted :
  map (λ r, map fst (form r))
      (requests (snd (verifyTurnstile
                        (always (answer true 200
                                   (Some (JObject [("success", JBool true)]))))
                        (Some "test-token") (Some "test-secret") None quiet)))
  = [ ["secret"; "response"] ].
Proof. reflexivity. Qed.

Example test_network_error :
  fst (verifyTurnstile (always FetchRejects) (Some "token") (Some "secret-key")
         None quiet)
  = Normal {| success := false;
              error := Some "Security verification error. Please try again." |}.
Proof. reflexivity. Qed.

Example test_non_ok_response :
  verifyTurnstile (always (answer false 500 None))
    (Some "token") (Some "secret-key") None quiet
  = (Normal {| success := false;
               error := Some "Security verification failed. Please try again." |},
     logged (sent quiet (request_of (Some "token") (Some "secret-key") None))
            (RequestFailed 500 "")).
Proof. reflexivity. Qed.

Example test_malformed_json :
  fst (verifyTurnstile (always (answer true 200 None))
         (Some "token") (Some "secret-key") None quiet)
  = Normal {| success := false;
              error := Some "Security verification error. Please try again." |}.
Proof. reflexivity. Qed.

(** *** Helper lemmas *)

(** A call whose secret and token are truthy, evaluated up to the answer
    of the remote end. *)
Lemma verify_truthy (remote : Request → fetch_outcome)
    (token secretKey remoteIp : option string) (w : World) :
  truthy_str secretKey = true →
  truthy_str token = true →
  let req := request_of token secretKey remoteIp in
  verifyTurnstile remote token secretKey remoteIp w =
  match remote req with
  | FetchRejects =>
      (Normal verification_error, logged (sent w req) (ErrorVerifying LibraryError))
  | FetchResolves response =>
      if ok response then
        match json response with
        | None =>
            (Normal verification_error,
             logged (sent w req) (ErrorVerifying SyntaxError))
        | Some JNull =>
            (Normal verification_error,
             logged (sent w req) (ErrorVerifying TypeError))
        | Some (JObject ms) =>
            if from_option truthy false (member "success" ms)
            then (Normal verified, sent w req)
            else (Normal verification_failed,
                  logged (sent w req) (VerificationFailed (member "error-codes" ms)))
        | Some _ =>
            (Normal verification_failed,
             logged (sent w req) (VerificationFailed None))
        end
      else (Normal verification_failed,
            logged (sent w req)
                   (RequestFailed (status response) (statusText response)))
  end.
Proof.
  intros Hsecret Htoken req. subst req.
  unfold verifyTurnstile. rewrite Hsecret, Htoken. cbn [negb].
  unfold try_catch_M, mbind, M_bind, fetch, request_of, append.
  cbn [app].
  destruct (truthy_str remoteIp); cbn [app];
    (match goal with |- context [remote ?r] => destruct (remote r) as [|response] end;
     [reflexivity|];
     destruct (ok response); cbn [negb]; [|reflexivity];
     unfold response_json, lift;
     destruct (json response) as [data|]; [|reflexivity];
     destruct data as [| | | | |ms]; try reflexivity;
     cbn [get_property];
     destruct (from_option truthy false (member "success" ms)); reflexivity).
Qed.

(** Exactly one request goes out, whatever the remote end answers. *)
Lemma verify_truthy_requests (remote : Request → fetch_outcome)
    (token secretKey remoteIp : option string) (w : World) :
  truthy_str secretKey = true →
  truthy_str token = true →
  requests (snd (verifyTurnstile remote token secretKey remoteIp w)) =
  (requests w ++ [request_of token secretKey remoteIp])%list.
Proof.
  intros Hsecret Htoken. rewrite (verify_truthy remote _ _ _ w Hsecret Htoken).
  cbv zeta.
  destruct (remote _) as [|response]; [reflexivity|].
  destruct (ok response); [|reflexivity].
  destruct (json response) as [data|]; [|reflexivity].
  destruct data as [| | | | |ms]; try reflexivity.
  destruct (from_option truthy false (member "success" ms)); reflexivity.
Qed.

Lemma truthy_str_default (o : option string) :
  truthy_str o = true → Some (default "" o) = o.
Proof. destruct o; [reflexivity | discriminate]. Qed.

(** *** The claims *)

(** C5: the preconditions are checked in order. A falsy secret gives the
    not-configured result (and one console line); otherwise a falsy token
    gives the token-missing result; in both cases no request goes out.
    The four error messages are pairwise distinct. *)
Theorem preconditions_in_order (remote : Request → fetch_outcome)
    (token secretKey remoteIp : option string) (w : World) :
  let out := verifyTurnstile remote token secretKey remoteIp w in
  (truthy_str secretKey = false →
     fst out = Normal {| success := false;
                         error := Some "Turnstile verification is not configured" |} ∧
     requests (snd out) = requests w ∧
     console (snd out) = (console w ++ [SecretKeyRequired])%list) ∧
  (truthy_str secretKey = true → truthy_str token = false →
     fst out = Normal {| success := false;
                         error := Some "Turnstile token is missing" |} ∧
     snd out = w) ∧
  NoDup [error not_configured; error token_missing;
         error verification_failed; error verification_error].
Proof.
  cbv zeta. unfold verifyTurnstile. split; [|split].
  - intros Hsecret. rewrite Hsecret. repeat split.
  - intros Hsecret Htoken. rewrite Hsecret, Htoken. repeat split.
  - repeat (constructor;
            [rewrite ?elem_of_cons, elem_of_nil; cbn; intuition discriminate|]).
    constructor.
Qed.

Lemma preconditions_in_order_witness :
  fst (verifyTurnstile (always (answer true 200 (Some (JObject [("success", JBool true)]))))
         None None (Some "203.0.113.7") quiet)
  = Normal {| success := false;
              error := Some "Turnstile verification is not configured" |}
  ∧ verifyTurnstile (always (answer true 200 (Some (JObject [("success", JBool true)]))))
      None (Some "secret-key") None quiet
    = (Normal {| success := false; error := Some "Turnstile token is missing" |}, quiet).
Proof.
  split.
  - destruct (preconditions_in_order
                (always (answer true 200 (Some (JObject [("success", JBool true)]))))
                None None (Some "203.0.113.7") quiet) as [Hsecret _].
    exact (proj1 (Hsecret eq_refl)).
  - destruct (preconditions_in_order
                (always (answer true 200 (Some (JObject [("success", JBool true)]))))
                None (Some "secret-key") None quiet) as (_ & Htoken & _).
    destruct (Htoken eq_refl eq_refl) as [Hfst Hsnd].
    apply injective_projections; [exact Hfst | exact Hsnd].
Defined.

(** C4: every call resolves (it never throws). When the secret and the
    token are truthy, one request [req] goes out and the result follows
    the remote end's answer to it: a response that is not ok gives the
    verification-failed message; an ok response whose body parses to an
    object with a falsy [success] gives the same message; one with a
    truthy [success] gives [{success: true}] with no error; a rejected
    request or a body that fails to parse gives the verification-error
    message. *)
Theorem result_follows_remote_response (remote : Request → fetch_outcome)
    (token secretKey remoteIp : option string) (w : World) :
  let out := verifyTurnstile remote token secretKey remoteIp w in
  (∃ r, fst out = Normal r) ∧
  (truthy_str secretKey = true → truthy_str token = true →
   ∃ req, requests (snd out) = (requests w ++ [req])%list ∧
     (∀ response, remote req = FetchResolves response → ok response = false →
        fst out = Normal {| success := false;
                            error := Some "Security verification failed. Please try again." |}) ∧
     (∀ response ms v, remote req = FetchResolves response → ok response = true →
        json response = Some (JObject ms) → member "success" ms = Some v →
        truthy v = false →
        fst out = Normal {| success := false;
                            error := Some "Security verification failed. Please try again." |}) ∧
     (∀ response ms v, remote req = FetchResolves response → ok response = true →
        json response = Some (JObject ms) → member "success" ms = Some v →
        truthy v = true →
        fst out = Normal {| success := true; error := None |}) ∧
     (remote req = FetchRejects →
        fst out = Normal {| success := false;
                            error := Some "Security verification error. Please try again." |}) ∧
     (∀ response, remote req = FetchResolves response → ok response = true →
        json response = None →
        fst out = Normal {| success := false;
                            error := Some "Security verification error. Please try again." |})).
Proof.
  cbv zeta. split.
  - destruct (truthy_str secretKey) eqn:Hsecret;
      [destruct (truthy_str token) eqn:Htoken|].
    + rewrite (verify_truthy remote _ _ _ w Hsecret Htoken). cbv zeta.
      destruct (remote _) as [|response]; [eauto|].
      destruct (ok response); [|eauto].
      destruct (json response) as [data|]; [|eauto].
      destruct data as [| | | | |ms]; eauto.
      destruct (from_option truthy false (member "success" ms)); eauto.
    + unfold verifyTurnstile. rewrite Hsecret, Htoken. cbn. eauto.
    + unfold verifyTurnstile. rewrite Hsecret. cbn. eauto.
  - intros Hsecret Htoken. exists (request_of token secretKey remoteIp).
    split; [apply verify_truthy_requests; assumption|].
    rewrite (verify_truthy remote _ _ _ w Hsecret Htoken). cbv zeta.
    repeat split.
    + intros response -> Hok. rewrite Hok. reflexivity.
    + intros response ms v -> Hok -> Hv Hfalsy. rewrite Hok, Hv. cbn.
      rewrite Hfalsy. reflexivity.
    + intros response ms v -> Hok -> Hv Htruthy. rewrite Hok, Hv. cbn.
      rewrite Htruthy. reflexivity.
    + intros ->. reflexivity.
    + intros response -> Hok ->. rewrite Hok. reflexivity.
Qed.

Lemma result_follows_remote_response_witness :
  fst (verifyTurnstile
         (always (answer true 200 (Some (JObject [("success", JBool true)]))))
         (Some "token") (Some "secret-key") None quiet)
  = Normal {| success := true; error := None |}
  ∧ fst (verifyTurnstile (always (answer false 503 None))
           (Some "token") (Some "secret-key") None quiet)
    = Normal {| success := false;
                error := Some "Security verification failed. Please try again." |}.
Proof.
  split.
  - destruct (result_follows_remote_response
                (always (answer true 200 (Some (JObject [("success", JBool true)]))))
                (Some "token") (Some "secret-key") None quiet) as [_ Hcases].
    destruct (Hcases eq_refl eq_refl) as (req & _ & _ & _ & Hsuccess & _).
    exact (Hsuccess _ [("success", JBool true)] (JBool true)
             eq_refl eq_refl eq_refl eq_refl eq_refl).
  - destruct (result_follows_remote_response (always (answer false 503 None))
                (Some "token") (Some "secret-key") None quiet) as [_ Hcases].
    destruct (Hcases eq_refl eq_refl) as (req & _ & Hnot_ok & _).
    exact (Hnot_ok _ eq_refl eq_refl).
Defined.

(** C8, as stated, fails: a [remoteIp] argument that is provided as the
    empty string adds no [remoteip] field. *)
Lemma empty_remoteip_not_sent :
  ¬ (∀ (remote : Request → fetch_outcome) (token secretKey remoteIp : option string)
       (w : World),
       truthy_str secretKey = true → truthy_str token = true →
       ∃ req,
         requests (snd (verifyTurnstile remote token secretKey remoteIp w))
         = (requests w ++ [req])%list ∧
         is_Some (params_get "secret" (form req)) ∧
         is_Some (params_get "response" (form req)) ∧
         (is_Some (params_get "remoteip" (form req)) ↔ is_Some remoteIp)).
Proof.
  intros H.
  destruct (H (always FetchRejects) (Some "token") (Some "secret-key") (Some "")
              quiet eq_refl eq_refl) as (req & Hreq & _ & _ & Hiff).
  vm_compute in Hreq. injection Hreq as <-.
  destruct (proj2 Hiff (ex_intro _ "" eq_refl)) as [v Hv].
  vm_compute in Hv. discriminate Hv.
Qed.

(** C8, amended: when the secret and the token are truthy, the one
    outbound request has a urlencoded body whose fields are [secret] and
    [response], holding the secret and the token, followed by [remoteip]
    exactly when the [remoteIp] argument is truthy (a non-empty string),
    then holding that address; when [remoteIp] is absent, null or empty,
    the body has no [remoteip] key at all. *)
Theorem request_body_fields (remote : Request → fetch_outcome)
    (token secretKey remoteIp : option string) (w : World) :
  truthy_str secretKey = true →
  truthy_str token = true →
  ∃ req,
    requests (snd (verifyTurnstile remote token secretKey remoteIp w))
    = (requests w ++ [req])%list ∧
    content_type req = "application/x-www-form-urlencoded" ∧
    params_get "secret" (form req) = secretKey ∧
    params_get "response" (form req) = token ∧
    map fst (form req)
    = (["secret"; "response"]
       ++ (if truthy_str remoteIp then ["remoteip"] else []))%list ∧
    ("remoteip" ∈ map fst (form req) ↔ truthy_str remoteIp = true) ∧
    (truthy_str remoteIp = true → params_get "remoteip" (form req) = remoteIp).
Proof.
  intros Hsecret Htoken. exists (request_of token secretKey remoteIp).
  split; [apply verify_truthy_requests; assumption|].
  unfold request_of. cbn [form content_type].
  split; [reflexivity|].
  split; [cbn; apply truthy_str_default, Hsecret|].
  split; [cbn; apply truthy_str_default, Htoken|].
  destruct (truthy_str remoteIp) eqn:Hip; cbn.
  - split; [reflexivity|]. split.
    + split; [reflexivity|]. intros _. set_solver.
    + intros _. apply truthy_str_default, Hip.
  - split; [reflexivity|]. split.
    + split; [|discriminate]. intros Hin.
      rewrite !elem_of_cons, elem_of_nil in Hin.
      destruct Hin as [Hin|[Hin|[]]]; discriminate Hin.
    + discriminate.
Qed.

Lemma request_body_fields_witness :
  ∃ req,
    requests (snd (verifyTurnstile (always FetchRejects)
                     (Some "token") (Some "secret-key") (Some "192.168.1.1") quiet))
    = [req] ∧
    form req = [("secret", "secret-key"); ("response", "token");
                ("remoteip", "192.168.1.1")].
Proof.
  destruct (request_body_fields (always FetchRejects)
              (Some "token") (Some "secret-key") (Some "192.168.1.1") quiet
              eq_refl eq_refl) as (req & Hreq & _).
  exists req. split; [exact Hreq|].
  vm_compute in Hreq. injection Hreq as <-. reflexivity.
Defined.

End VerifyFacts.

(* ===================================================================== *)
(** ** Auto-refresh: the repository's tests, and the claims              *)
(* ===================================================================== *)

Module RefreshFacts.
Import Refresh Samples.
Local Open Scope N_scope.

(** *** turnstile-client.test.ts *)

Example test_reset_when_interval_fires :
  reset_calls (run true every_second [Wait 100; Wait 1000] rendered)
  = [ResetCalled 1100 "widget-123"].
Proof. vm_compute. reflexivity. Qed.

Example test_multiple_refresh_cycles :
  map (λ steps, List.length (reset_calls (run true every_second steps rendered)))
      [[Wait 100; Wait 1000]; [Wait 100; Wait 1000; Wait 1000];
       [Wait 100; Wait 1000; Wait 1000; Wait 1000]]
  = [1; 2; 3]%nat.
Proof. vm_compute. reflexivity. Qed.

Example test_null_widget :
  timers (setupAutoRefresh false (page (Some api) None)) = [].
Proof. reflexivity. Qed.

Example test_wait_for_widget_initialization :
  let s := setupAutoRefresh true (page (Some api) None) in
  active_resets (run true every_second [Wait 5000] s) = 0%nat ∧
  reset_calls (run true every_second [WidgetRendered "widget-123"; Wait 100; Wait 1000] s)
  = [ResetCalled 1100 "widget-123"].
Proof. vm_compute. auto. Qed.

Example test_cleanup_before_initialization :
  let s := setupAutoRefresh true (page (Some api) None) in
  let s' := run true every_second [Teardown; Wait 10000] s in
  reset_calls s' = [] ∧ active_resets s' = 0%nat ∧ active_polls s' = 0%nat.
Proof. vm_compute. auto. Qed.

Example test_default_refresh_interval :
  let options := {| refreshInterval := None; onRefresh := true; onError := false |} in
  trace (run true options [Wait 100; Wait 120000] rendered)
  = [ResetCalled 120100 "widget-123"; Refreshed 120100].
Proof. vm_compute. reflexivity. Qed.

Example test_onError_when_reset_fails :
  let page' := page (Some {| reset_throws := λ _, true |}) (Some "widget-123") in
  let options := {| refreshInterval := Some 1000; onRefresh := true; onError := true |} in
  trace (run true options [Wait 100; Wait 1000; Wait 1000]
           (setupAutoRefresh true page'))
  = [ResetCalled 1100 "widget-123"; Warned 1100; Failed 1100;
     ResetCalled 2100 "widget-123"; Warned 2100; Failed 2100].
Proof. vm_compute. reflexivity. Qed.

Example test_script_loads_later :
  reset_calls (run true every_second
                 [WidgetRendered "widget-123"; ScriptLoaded api; Wait 1300]
                 before_script)
  = [ResetCalled 1200 "widget-123"].
Proof. vm_compute. reflexivity. Qed.

Example test_stop_checking_after_timeout :
  let s := setupAutoRefresh true (page (Some api) None) in
  active_polls (run true every_second [Wait 9999] s) = 1%nat ∧
  active_polls (run true every_second [Wait 10000] s) = 0%nat ∧
  reset_calls (run true every_second
                 [Wait 10000; WidgetRendered "widget-123"; Wait 60000] s) = [].
Proof. vm_compute. auto. Qed.

(** *** The guard flag is only ever set *)

Section Flag.
Variable widget : bool.
Variable options : AutoRefreshOptions.

Lemma keeps_flag_compose (f g : State → State) :
  keeps_flag f → keeps_flag g → keeps_flag (λ s, g (f s)).
Proof. intros Hf Hg s. rewrite Hg. apply Hf. Qed.

Lemma clearInterval_keeps_flag (h : handle) : keeps_flag (clearInterval h).
Proof. intros s. reflexivity. Qed.

Lemma setupReset_keeps_flag : keeps_flag (setupReset widget).
Proof.
  intros s. unfold setupReset.
  destruct (negb widget || negb (bool_decide (is_Some (turnstile s))));
    reflexivity.
Qed.

Lemma checkWidget_keeps_flag : keeps_flag (checkWidget options).
Proof.
  intros s. unfold checkWidget.
  destruct (Js.truthy_str (widgetIdAttr s)); [|reflexivity].
  destruct (checkWidgetInterval s); reflexivity.
Qed.

Lemma checkWidgetExpiry_keeps_flag : keeps_flag checkWidgetExpiry.
Proof. intros s. unfold checkWidgetExpiry. destruct (checkWidgetInterval s); reflexivity. Qed.

Lemma resetWidget_keeps_flag (widgetId : string) :
  keeps_flag (resetWidget options widgetId).
Proof.
  intros s. unfold resetWidget.
  destruct (turnstile s) as [a|].
  - destruct (reset_throws a widgetId); destruct (onError options);
      destruct (onRefresh options); reflexivity.
  - destruct (onError options); reflexivity.
Qed.

Lemma checkScript_keeps_flag (h : handle) : keeps_flag (checkScript widget h).
Proof.
  intros s. unfold checkScript.
  destruct (bool_decide (is_Some (turnstile s))); [|reflexivity].
  rewrite setupReset_keeps_flag. reflexivity.
Qed.

Lemma run_callback_keeps_flag (self : handle) (a : callback) :
  keeps_flag (run_callback widget options self a).
Proof.
  destruct a; cbn [run_callback].
  - apply checkWidget_keeps_flag.
  - apply resetWidget_keeps_flag.
  - apply checkWidgetExpiry_keeps_flag.
  - apply setupReset_keeps_flag.
  - apply checkScript_keeps_flag.
  - apply clearInterval_keeps_flag.
Qed.

Lemma fire_keeps_flag (h : handle) : keeps_flag (λ s, fire widget options s h).
Proof.
  intros s. unfold fire.
  destruct (find _ (timers s)) as [t|]; [|reflexivity].
  destruct (due t =? now s); [|reflexivity].
  rewrite run_callback_keeps_flag. destruct (every t); reflexivity.
Qed.

Lemma fold_fire_keeps_flag (hs : list handle) :
  keeps_flag (fold_left (fire widget options) hs).
Proof.
  induction hs as [|h hs IH]; intros s; [reflexivity|].
  cbn [fold_left]. rewrite IH. apply fire_keeps_flag.
Qed.

Lemma tick_keeps_flag : keeps_flag (tick widget options).
Proof. intros s. unfold tick. rewrite fold_fire_keeps_flag. reflexivity. Qed.

Lemma advance_keeps_flag (ms : N) : keeps_flag (advance widget options ms).
Proof.
  intros s. unfold advance.
  induction ms as [|ms IH] using N.peano_ind; [reflexivity|].
  rewrite N.iter_succ, tick_keeps_flag. exact IH.
Qed.

Lemma cleanup_sets_flag (s : State) : isCleanedUp (cleanup s) = true.
Proof.
  unfold cleanup. destruct (isCleanedUp s) eqn:Hflag; [exact Hflag|].
  cbn. destruct (turnstileResetInterval s); cbn;
    destruct (checkWidgetInterval s); reflexivity.
Qed.

Lemma cleanup_when_flagged (s : State) : isCleanedUp s = true → cleanup s = s.
Proof. intros Hflag. unfold cleanup. rewrite Hflag. reflexivity. Qed.

(** Once set, the flag stays set through every step. *)
Lemma do_step_flagged (s : State) (a : step) :
  isCleanedUp s = true → isCleanedUp (do_step widget options s a) = true.
Proof.
  intros Hflag. destruct a; cbn [do_step].
  - rewrite advance_keeps_flag. exact Hflag.
  - apply cleanup_sets_flag.
  - destruct (loadListener s); exact Hflag.
  - destruct (unloadListener s); [apply cleanup_sets_flag | exact Hflag].
  - exact Hflag.
  - exact Hflag.
Qed.

Lemma run_flagged (steps : list step) (s : State) :
  isCleanedUp s = true → isCleanedUp (run widget options steps s) = true.
Proof.
  revert s. induction steps as [|a steps IH]; intros s Hflag; [exact Hflag|].
  cbn [run fold_left]. apply IH, do_step_flagged, Hflag.
Qed.

End Flag.

(** *** The claims *)

(** C9: teardown is idempotent. After a first call of the returned
    function, whatever happens next in the page (time passing, events, the
    script or the widget identifier appearing), calling it again is
    defined and leaves the whole session state, timers and flags
    included, exactly as it was. In particular two calls in a row equal
    one. *)
Theorem teardown_idempotent (widget : bool) (options : AutoRefreshOptions)
    (s : State) (steps : list step) :
  let later := run widget options steps (cleanup s) in
  cleanup later = later ∧ cleanup (cleanup s) = cleanup s.
Proof.
  cbv zeta. split.
  - apply cleanup_when_flagged, run_flagged, cleanup_sets_flag.
  - apply cleanup_when_flagged, cleanup_sets_flag.
Qed.

(** C1 (the code departs from the claim): teardown called before the
    vendor script has loaded stops nothing. The script poll is not one of
    the two timers teardown clears and [setupReset] does not look at the
    guard flag, so once the script and the widget identifier appear the
    reset timer is started and the rendering API is reset, here 1200 ms
    after a teardown that found nothing to clear. *)
Theorem teardown_before_script_load_does_not_stop_resets :
  let torn_down := run true every_second [Teardown] before_script in
  let later :=
    run true every_second
        [ScriptLoaded api; WidgetRendered "w1"; Wait 1200] torn_down in
  isCleanedUp torn_down = true ∧
  reset_calls torn_down = [] ∧
  reset_calls later = [ResetCalled 1200 "w1"] ∧
  active_resets later = 1%nat ∧
  isCleanedUp later = true.
Proof. vm_compute. auto. Qed.

(** C2 (the code departs from the claim): when the script is found by the
    periodic check (at 100 ms) and the page's load event fires as well
    (at 150 ms), [setupReset] runs twice and the second poll's handle
    overwrites the first. At 650 ms two initialization polls are
    active. Once the identifier appears, the orphaned poll stops the
    other one and starts the reset timer (700 ms) but stays active next
    to it, and starts one more reset timer at its next firing (800 ms).
    No two timers are due at the same instant in this run. *)
Theorem both_triggers_start_two_polls :
  let s1 := run true every_second [ScriptLoaded api; Wait 150; Load; Wait 500]
                before_script in
  let s2 := run true every_second [WidgetRendered "w1"; Wait 50] s1 in
  let s3 := run true every_second [Wait 100] s2 in
  (now s1 = 650 ∧ active_polls s1 = 2%nat) ∧
  (now s2 = 700 ∧ active_polls s2 = 1%nat ∧ active_resets s2 = 1%nat) ∧
  (now s3 = 800 ∧ active_polls s3 = 1%nat ∧ active_resets s3 = 2%nat).
Proof. vm_compute. auto 10. Qed.

(** *** Sessions in which [setupReset] runs once *)

(** Counting the elements of a list that satisfy a test. *)
Section Counting.
Context {A : Type} (p : A → bool).

Lemma count_filter_le (q : A → bool) (l : list A) :
  (List.length (List.filter p (List.filter q l)) ≤ List.length (List.filter p l))%nat.
Proof.
  induction l as [|x l IH]; [reflexivity|].
  cbn [List.filter]. destruct (q x), (p x) eqn:Hp; cbn [List.filter List.length];
    rewrite ?Hp; cbn [List.length]; lia.
Qed.

Lemma count_map (f : A → A) (l : list A) :
  (∀ x, p (f x) = p x) →
  List.length (List.filter p (map f l)) = List.length (List.filter p l).
Proof.
  intros Hf. induction l as [|x l IH]; [reflexivity|].
  cbn [map List.filter]. rewrite Hf. destruct (p x); cbn [List.length]; lia.
Qed.

Lemma count_snoc (l : list A) (x : A) :
  List.length (List.filter p (l ++ [x])) =
  (List.length (List.filter p l) + (if p x then 1 else 0))%nat.
Proof.
  rewrite List.filter_app, List.length_app. cbn [List.filter].
  destruct (p x); reflexivity.
Qed.

Lemma count_split (q : A → bool) (l : list A) :
  (List.length (List.filter p (List.filter (λ x, negb (q x)) l))
   + List.length (List.filter p (List.filter q l)))%nat
  = List.length (List.filter p l).
Proof.
  induction l as [|x l IH]; [reflexivity|].
  cbn [List.filter]. destruct (q x), (p x) eqn:Hp; cbn [negb List.filter List.length];
    rewrite ?Hp; cbn [List.length]; lia.
Qed.

Lemma count_zero (l : list A) :
  List.length (List.filter p l) = 0%nat ↔ ∀ x, In x l → p x = false.
Proof.
  induction l as [|x l IH]; cbn [List.filter In].
  - split; [intros _ y [] | reflexivity].
  - destruct (p x) eqn:Hp; cbn [List.length]; split.
    + discriminate.
    + intros Hall. specialize (Hall x (or_introl eq_refl)). congruence.
    + intros Hzero y [<-|Hy]; [exact Hp | apply IH; assumption].
    + intros Hall. apply IH. intros y Hy. apply Hall. right. exact Hy.
Qed.

Lemma count_positive (l : list A) (x : A) :
  In x l → p x = true → (1 ≤ List.length (List.filter p l))%nat.
Proof.
  intros Hin Hp.
  destruct (List.length (List.filter p l)) eqn:Hlen; [|lia].
  rewrite (proj1 (count_zero l) Hlen x Hin) in Hp. discriminate.
Qed.

End Counting.

Section Tidy.
Variable widget : bool.
Variable options : AutoRefreshOptions.

Lemma tidy_clearInterval (h : handle) (s : State) : tidy s → tidy (clearInterval h s).
Proof.
  intros (Hload & Hkinds & Hpolls & Hresets & Hcount & Hflag).
  unfold tidy, active_polls, active_resets in *. cbn.
  pose proof (count_filter_le is_poll (λ t, negb (id t =? h)) (timers s)).
  pose proof (count_filter_le is_reset (λ t, negb (id t =? h)) (timers s)).
  repeat split.
  - exact Hload.
  - intros t Ht. apply List.filter_In in Ht. apply Hkinds, Ht.
  - intros t Ht. apply List.filter_In in Ht. apply Hpolls, Ht.
  - intros t Ht. apply List.filter_In in Ht. apply Hresets, Ht.
  - lia.
  - intros Hc. specialize (Hflag Hc). lia.
Qed.

(** Clearing the handle a variable names removes every timer of its
    kind. *)
Lemma clear_named_polls (h : handle) (s : State) :
  tidy s → checkWidgetInterval s = Some h → active_polls (clearInterval h s) = 0%nat.
Proof.
  intros (_ & _ & Hpolls & _) Hh. unfold active_polls. cbn.
  apply count_zero. intros t Ht. apply List.filter_In in Ht as [Hin Hne].
  destruct (is_poll t) eqn:Hp; [|reflexivity].
  specialize (Hpolls t Hin Hp). rewrite Hh in Hpolls. injection Hpolls as ->.
  rewrite N.eqb_refl in Hne. discriminate.
Qed.

Lemma clear_named_resets (h : handle) (s : State) :
  tidy s → turnstileResetInterval s = Some h →
  active_resets (clearInterval h s) = 0%nat.
Proof.
  intros (_ & _ & _ & Hresets & _) Hh. unfold active_resets. cbn.
  apply count_zero. intros t Ht. apply List.filter_In in Ht as [Hin Hne].
  destruct (is_reset t) eqn:Hp; [|reflexivity].
  specialize (Hresets t Hin Hp). rewrite Hh in Hresets. injection Hresets as ->.
  rewrite N.eqb_refl in Hne. discriminate.
Qed.

(** With no timer of a kind left, the variable naming it may be reset. *)
Lemma tidy_forget_poll (s : State) :
  tidy s → active_polls s = 0%nat → tidy (set_checkWidgetInterval None s).
Proof.
  intros (Hload & Hkinds & Hpolls & Hresets & Hcount & Hflag) Hzero.
  unfold tidy, active_polls, active_resets in *. cbn.
  repeat split; try assumption.
  intros t Ht Hp. rewrite (proj1 (count_zero is_poll _) Hzero t Ht) in Hp.
  discriminate.
Qed.

Lemma tidy_forget_reset (s : State) :
  tidy s → active_resets s = 0%nat → tidy (set_turnstileResetInterval None s).
Proof.
  intros (Hload & Hkinds & Hpolls & Hresets & Hcount & Hflag) Hzero.
  unfold tidy, active_polls, active_resets in *. cbn.
  repeat split; try assumption.
  intros t Ht Hp. rewrite (proj1 (count_zero is_reset _) Hzero t Ht) in Hp.
  discriminate.
Qed.

Lemma no_polls_when_unnamed (s : State) :
  tidy s → checkWidgetInterval s = None → active_polls s = 0%nat.
Proof.
  intros (_ & _ & Hpolls & _) Hnone. unfold active_polls.
  apply count_zero. intros t Ht. destruct (is_poll t) eqn:Hp; [|reflexivity].
  specialize (Hpolls t Ht Hp). congruence.
Qed.

Lemma no_resets_when_unnamed (s : State) :
  tidy s → turnstileResetInterval s = None → active_resets s = 0%nat.
Proof.
  intros (_ & _ & _ & Hresets & _) Hnone. unfold active_resets.
  apply count_zero. intros t Ht. destruct (is_reset t) eqn:Hp; [|reflexivity].
  specialize (Hresets t Ht Hp). congruence.
Qed.

(** Clearing and forgetting the poll, as three callbacks do. *)
Lemma tidy_stop_poll (s : State) :
  tidy s →
  let s' := match checkWidgetInterval s with
            | Some h => set_checkWidgetInterval None (clearInterval h s)
            | None => s
            end in
  tidy s' ∧ active_polls s' = 0%nat ∧
  (active_resets s' ≤ active_resets s)%nat ∧ isCleanedUp s' = isCleanedUp s.
Proof.
  intros Htidy. cbv zeta. destruct (checkWidgetInterval s) as [h|] eqn:Hh.
  - pose proof (clear_named_polls h s Htidy Hh) as Hzero.
    split; [apply tidy_forget_poll; [apply tidy_clearInterval, Htidy | exact Hzero]|].
    split; [exact Hzero|]. split; [|reflexivity].
    unfold active_resets. cbn. apply count_filter_le.
  - split; [exact Htidy|]. split; [apply no_polls_when_unnamed; assumption|].
    split; [lia | reflexivity].
Qed.

Lemma tidy_checkWidgetExpiry (s : State) : tidy s → tidy (checkWidgetExpiry s).
Proof. intros Htidy. apply (tidy_stop_poll s Htidy). Qed.

(** The poll's callback, run while no reset timer is active and the
    session is not torn down. *)
Lemma tidy_checkWidget (s : State) :
  tidy s → active_resets s = 0%nat → isCleanedUp s = false →
  tidy (checkWidget options s).
Proof.
  intros Htidy Hresets0 Hflag. unfold checkWidget.
  destruct (Js.truthy_str (widgetIdAttr s)); [|exact Htidy].
  destruct (tidy_stop_poll s Htidy) as (Htidy' & Hpolls0 & Hle & Hflag').
  cbv zeta in Htidy', Hpolls0, Hle, Hflag'.
  set (s' := match checkWidgetInterval s with
             | Some h => set_checkWidgetInterval None (clearInterval h s)
             | None => s
             end) in *.
  assert (Hresets0' : active_resets s' = 0%nat) by lia.
  destruct Htidy' as (Hload & Hkinds & Hpolls & Hresets & Hcount & _).
  unfold tidy, active_polls, active_resets in *. cbn.
  rewrite !count_snoc. cbn.
  repeat split.
  - exact Hload.
  - intros t Ht. apply List.in_app_or in Ht as [Ht|[<-|[]]];
      [apply Hkinds, Ht | reflexivity].
  - intros t Ht Hp. apply List.in_app_or in Ht as [Ht|[<-|[]]]; [|discriminate Hp].
    rewrite (proj1 (count_zero is_poll _) Hpolls0 t Ht) in Hp. discriminate.
  - intros t Ht Hr. apply List.in_app_or in Ht as [Ht|[<-|[]]]; [|reflexivity].
    rewrite (proj1 (count_zero is_reset _) Hresets0' t Ht) in Hr. discriminate.
  - lia.
  - intros Hc. congruence.
Qed.

Lemma tidy_resetWidget (widgetId : string) (s : State) :
  tidy s → tidy (resetWidget options widgetId s).
Proof.
  intros Htidy. unfold resetWidget.
  destruct (turnstile s) as [a|].
  - destruct (reset_throws a widgetId), (onError options), (onRefresh options);
      exact Htidy.
  - destruct (onError options); exact Htidy.
Qed.

Lemma tidy_stop_reset (s : State) :
  tidy s →
  let s' := match turnstileResetInterval s with
            | Some h => set_turnstileResetInterval None (clearInterval h s)
            | None => s
            end in
  tidy s' ∧ active_resets s' = 0%nat ∧
  (active_polls s' ≤ active_polls s)%nat ∧
  checkWidgetInterval s' = checkWidgetInterval s.
Proof.
  intros Htidy. cbv zeta. destruct (turnstileResetInterval s) as [h|] eqn:Hh.
  - pose proof (clear_named_resets h s Htidy Hh) as Hzero.
    split; [apply tidy_forget_reset; [apply tidy_clearInterval, Htidy | exact Hzero]|].
    split; [exact Hzero|]. split; [|reflexivity].
    unfold active_polls. cbn. apply count_filter_le.
  - split; [exact Htidy|]. split; [apply no_resets_when_unnamed; assumption|].
    split; [lia | reflexivity].
Qed.

Lemma tidy_set_flag (s : State) :
  tidy s → (active_polls s + active_resets s = 0)%nat →
  tidy (set_isCleanedUp true s).
Proof.
  intros (Hload & Hkinds & Hpolls & Hresets & Hcount & _) Hzero.
  unfold tidy. repeat split; try assumption. intros _. exact Hzero.
Qed.

Lemma tidy_cleanup (s : State) : tidy s → tidy (cleanup s).
Proof.
  intros Htidy. unfold cleanup.
  destruct (isCleanedUp s) eqn:Hflag; [exact Htidy|].
  destruct (tidy_stop_reset s Htidy) as (Htidy1 & Hresets0 & _ & _).
  cbv zeta in Htidy1, Hresets0.
  set (s1 := match turnstileResetInterval s with
             | Some h => set_turnstileResetInterval None (clearInterval h s)
             | None => s
             end) in *.
  destruct (tidy_stop_poll s1 Htidy1) as (Htidy2 & Hpolls0 & Hle & _).
  cbv zeta in Htidy2, Hpolls0, Hle.
  set (s2 := match checkWidgetInterval s1 with
             | Some h => set_checkWidgetInterval None (clearInterval h s1)
             | None => s1
             end) in *.
  assert (Hzero : (active_polls s2 + active_resets s2 = 0)%nat) by lia.
  pose proof (tidy_set_flag s2 Htidy2 Hzero) as Hfinal.
  replace (match checkWidgetInterval _ with Some _ => _ | None => _ end)
    with (set_isCleanedUp true s2); [exact Hfinal|].
  subst s2 s1. cbn.
  destruct (turnstileResetInterval s); cbn; destruct (checkWidgetInterval s);
    reflexivity.
Qed.

(** Setting an interval again changes neither its handle nor its
    callback. *)
Lemma tidy_reschedule (h : handle) (p : N) (s : State) :
  tidy s → tidy (reschedule h p s) ∧
  active_polls (reschedule h p s) = active_polls s ∧
  active_resets (reschedule h p s) = active_resets s.
Proof.
  intros (Hload & Hkinds & Hpolls & Hresets & Hcount & Hflag).
  set (again := λ t : timer,
         {| id := h; due := now s + p; every := every t; action := action t |}).
  assert (Hin : ∀ t', In t' (timers (reschedule h p s)) →
                      ∃ t, In t (timers s) ∧ id t' = id t ∧ action t' = action t).
  { intros t' Ht'. cbn in Ht'. apply List.in_app_or in Ht' as [Ht' | Ht'].
    - apply List.filter_In in Ht' as [Ht' _]. exists t'. auto.
    - apply List.in_map_iff in Ht' as (t & <- & Ht).
      apply List.filter_In in Ht as [Ht Hid]. apply N.eqb_eq in Hid.
      exists t. cbn. auto. }
  assert (Hsame : ∀ f : timer → bool,
            (∀ t, f (again t) = f t) →
            List.length (List.filter f (timers (reschedule h p s)))
            = List.length (List.filter f (timers s))).
  { intros f Hf. cbn. fold again.
    rewrite List.filter_app, List.length_app, (count_map f again _ Hf).
    apply count_split. }
  assert (Hp : active_polls (reschedule h p s) = active_polls s)
    by (apply Hsame; reflexivity).
  assert (Hr : active_resets (reschedule h p s) = active_resets s)
    by (apply Hsame; reflexivity).
  split; [|split; assumption].
  unfold tidy. rewrite Hp, Hr.
  split; [exact Hload|].
  split; [|split; [|split; [|split; assumption]]].
  - intros t' Ht'. destruct (Hin t' Ht') as (t & Ht & _ & Haction).
    unfold session_timer. rewrite Haction. apply Hkinds, Ht.
  - intros t' Ht'. destruct (Hin t' Ht') as (t & Ht & Hid & Haction).
    unfold is_poll. rewrite Haction, Hid. apply Hpolls, Ht.
  - intros t' Ht'. destruct (Hin t' Ht') as (t & Ht & Hid & Haction).
    unfold is_reset. rewrite Haction, Hid. apply Hresets, Ht.
Qed.

(** What a timer found in a tidy table can be. *)
Lemma tidy_timer_kind (s : State) (t : timer) :
  tidy s → In t (timers s) →
  (action t = CheckWidget ∧ active_resets s = 0%nat ∧ isCleanedUp s = false) ∨
  ((∃ widgetId, action t = ResetWidget widgetId) ∧ isCleanedUp s = false) ∨
  action t = CheckWidgetExpiry.
Proof.
  intros (_ & Hkinds & _ & _ & Hcount & Hflag) Hin.
  specialize (Hkinds t Hin). unfold session_timer in Hkinds.
  destruct (action t) eqn:Haction; try discriminate Hkinds.
  - left. split; [reflexivity|].
    assert (Hone : (1 ≤ active_polls s)%nat).
    { apply (count_positive is_poll _ t Hin). unfold is_poll. rewrite Haction.
      reflexivity. }
    split; [lia|].
    destruct (isCleanedUp s); [specialize (Hflag eq_refl); lia | reflexivity].
  - right. left. split; [eauto|].
    assert (Hone : (1 ≤ active_resets s)%nat).
    { apply (count_positive is_reset _ t Hin). unfold is_reset. rewrite Haction.
      reflexivity. }
    destruct (isCleanedUp s); [specialize (Hflag eq_refl); lia | reflexivity].
  - right. right. reflexivity.
Qed.

(** The state in which the callback of timer [t] runs. *)
Lemma tidy_before_callback (s : State) (t : timer) :
  tidy s →
  let s' := match every t with
            | Some p => reschedule (id t) p s
            | None => clearInterval (id t) s
            end in
  tidy s' ∧ (active_resets s' ≤ active_resets s)%nat ∧
  isCleanedUp s' = isCleanedUp s ∧ trace s' = trace s.
Proof.
  intros Htidy. cbv zeta. destruct (every t) as [p|].
  - destruct (tidy_reschedule (id t) p s Htidy) as (Htidy' & _ & Hresets).
    split; [exact Htidy'|]. split; [lia|]. split; reflexivity.
  - split; [apply tidy_clearInterval, Htidy|].
    split; [|split; reflexivity].
    unfold active_resets. cbn. apply count_filter_le.
Qed.

Lemma fire_found (s : State) (h : handle) (t : timer) :
  find (λ t, id t =? h) (timers s) = Some t → In t (timers s) ∧ id t = h.
Proof.
  intros Hfind. apply List.find_some in Hfind as [Hin Heq].
  split; [exact Hin | apply N.eqb_eq, Heq].
Qed.

Lemma tidy_fire (s : State) (h : handle) :
  tidy s → tidy (fire widget options s h).
Proof.
  intros Htidy. unfold fire.
  destruct (find _ (timers s)) as [t|] eqn:Hfind; [|exact Htidy].
  destruct (due t =? now s); [|exact Htidy].
  destruct (fire_found s h t Hfind) as [Hin <-].
  destruct (tidy_before_callback s t Htidy) as (Htidy' & Hle & Hflag' & _).
  cbv zeta in Htidy', Hle, Hflag'.
  destruct (tidy_timer_kind s t Htidy Hin)
    as [(-> & Hresets0 & Hflag) | [([widgetId ->] & _) | ->]];
    cbn [run_callback].
  - apply tidy_checkWidget; [exact Htidy' | lia | congruence].
  - apply tidy_resetWidget, Htidy'.
  - apply tidy_checkWidgetExpiry, Htidy'.
Qed.

(** After teardown no callback of the session has any effect that is
    recorded in the trace. *)
Lemma fire_after_teardown (s : State) (h : handle) :
  tidy s → isCleanedUp s = true →
  trace (fire widget options s h) = trace s.
Proof.
  intros Htidy Hflag. unfold fire.
  destruct (find _ (timers s)) as [t|] eqn:Hfind; [|reflexivity].
  destruct (due t =? now s); [|reflexivity].
  destruct (fire_found s h t Hfind) as [Hin <-].
  destruct (tidy_before_callback s t Htidy) as (_ & _ & _ & Htrace).
  cbv zeta in Htrace.
  destruct (tidy_timer_kind s t Htidy Hin)
    as [(_ & _ & Hno) | [(_ & Hno) | ->]]; [congruence | congruence |].
  cbn [run_callback]. rewrite <- Htrace. unfold checkWidgetExpiry.
  destruct (checkWidgetInterval _); reflexivity.
Qed.

Lemma tidy_fold_fire (hs : list handle) (s : State) :
  tidy s → tidy (fold_left (fire widget options) hs s).
Proof.
  revert s. induction hs as [|h hs IH]; intros s Htidy; [exact Htidy|].
  cbn [fold_left]. apply IH, tidy_fire, Htidy.
Qed.

Lemma fold_fire_after_teardown (hs : list handle) (s : State) :
  tidy s → isCleanedUp s = true →
  trace (fold_left (fire widget options) hs s) = trace s.
Proof.
  revert s. induction hs as [|h hs IH]; intros s Htidy Hflag; [reflexivity|].
  cbn [fold_left]. rewrite IH.
  - apply fire_after_teardown; assumption.
  - apply tidy_fire, Htidy.
  - rewrite (fire_keeps_flag widget options h s). exact Hflag.
Qed.

Lemma tidy_tick (s : State) : tidy s → tidy (tick widget options s).
Proof. intros Htidy. unfold tick. apply tidy_fold_fire. exact Htidy. Qed.

Lemma tick_after_teardown (s : State) :
  tidy s → isCleanedUp s = true → trace (tick widget options s) = trace s.
Proof.
  intros Htidy Hflag. unfold tick.
  rewrite fold_fire_after_teardown; [reflexivity | exact Htidy | exact Hflag].
Qed.

Lemma tidy_advance (ms : N) (s : State) :
  tidy s → tidy (advance widget options ms s).
Proof.
  intros Htidy. unfold advance.
  induction ms as [|ms IH] using N.peano_ind; [exact Htidy|].
  rewrite N.iter_succ. apply tidy_tick, IH.
Qed.

Lemma advance_after_teardown (ms : N) (s : State) :
  tidy s → isCleanedUp s = true → trace (advance widget options ms s) = trace s.
Proof.
  intros Htidy Hflag.
  induction ms as [|ms IH] using N.peano_ind; [reflexivity|].
  unfold advance in *. rewrite N.iter_succ, tick_after_teardown.
  - exact IH.
  - apply (tidy_advance ms s Htidy).
  - rewrite <- Hflag. apply (advance_keeps_flag widget options ms s).
Qed.

Lemma cleanup_trace (s : State) : trace (cleanup s) = trace s.
Proof.
  unfold cleanup. destruct (isCleanedUp s); [reflexivity|]. cbn.
  destruct (turnstileResetInterval s); cbn; destruct (checkWidgetInterval s);
    reflexivity.
Qed.

Lemma tidy_do_step (s : State) (a : step) :
  tidy s → tidy (do_step widget options s a).
Proof.
  intros Htidy. destruct a; cbn [do_step].
  - apply tidy_advance, Htidy.
  - apply tidy_cleanup, Htidy.
  - destruct Htidy as (Hload & Hrest). rewrite Hload. exact (conj Hload Hrest).
  - destruct (unloadListener s); [apply tidy_cleanup|]; exact Htidy.
  - exact Htidy.
  - exact Htidy.
Qed.

Lemma do_step_after_teardown (s : State) (a : step) :
  tidy s → isCleanedUp s = true → trace (do_step widget options s a) = trace s.
Proof.
  intros Htidy Hflag. destruct a; cbn [do_step].
  - apply advance_after_teardown; assumption.
  - apply cleanup_trace.
  - destruct Htidy as (-> & _). reflexivity.
  - destruct (unloadListener s); [apply cleanup_trace | reflexivity].
  - reflexivity.
  - reflexivity.
Qed.

Lemma tidy_run (steps : list step) (s : State) :
  tidy s → tidy (run widget options steps s).
Proof.
  revert s. induction steps as [|a steps IH]; intros s Htidy; [exact Htidy|].
  cbn [run fold_left]. apply IH, tidy_do_step, Htidy.
Qed.

Lemma run_after_teardown (steps : list step) (s : State) :
  tidy s → isCleanedUp s = true → trace (run widget options steps s) = trace s.
Proof.
  revert s. induction steps as [|a steps IH]; intros s Htidy Hflag; [reflexivity|].
  cbn [run fold_left]. fold (run widget options steps (do_step widget options s a)).
  rewrite IH.
  - apply do_step_after_teardown; assumption.
  - apply tidy_do_step, Htidy.
  - apply do_step_flagged, Hflag.
Qed.

(** A session set up when the script is already there is tidy. *)
Lemma tidy_setup (a : TurnstileAPI) (widgetId : option string) :
  tidy (setupAutoRefresh widget (page (Some a) widgetId)).
Proof.
  unfold tidy. destruct widget; cbn.
  - repeat split; try lia; try discriminate.
    + intros t [<-|[<-|[]]]; reflexivity.
    + intros t [<-|[<-|[]]]; [reflexivity | discriminate].
    + intros t [<-|[<-|[]]]; discriminate.
  - repeat split; try lia; try discriminate; intros t [].
Qed.

End Tidy.

(** The path that does what C2 asks: in a session set up when the script
    is already loaded, [setupReset] runs once, and in every state the
    session can reach at most one timer among initialization polls and
    reset timers is active (so at most one of each, and never one of each
    at the same time). *)
Lemma single_setup_one_timer (widget : bool) (options : AutoRefreshOptions)
    (a : TurnstileAPI) (widgetId : option string) (steps : list step) :
  let s := run widget options steps
               (setupAutoRefresh widget (page (Some a) widgetId)) in
  (active_polls s + active_resets s ≤ 1)%nat.
Proof.
  cbv zeta.
  destruct (tidy_run widget options steps _ (tidy_setup widget a widgetId))
    as (_ & _ & _ & _ & Hcount & _).
  exact Hcount.
Qed.

(** The path that does what C1 asks: in such a session, nothing is
    recorded after teardown, however the page goes on; in particular the
    rendering API is never reset again. *)
Lemma single_setup_teardown_is_final (widget : bool) (options : AutoRefreshOptions)
    (a : TurnstileAPI) (widgetId : option string) (before after : list step) :
  let s := run widget options before
               (setupAutoRefresh widget (page (Some a) widgetId)) in
  trace (run widget options (Teardown :: after) s) = trace s ∧
  reset_calls (run widget options (Teardown :: after) s) = reset_calls s.
Proof.
  cbv zeta.
  set (s := run widget options before _).
  assert (Htidy : tidy s) by apply tidy_run, tidy_setup.
  assert (Htrace : trace (run widget options (Teardown :: after) s) = trace s).
  { change (run widget options (Teardown :: after) s)
      with (run widget options after (cleanup s)).
    rewrite run_after_teardown.
    - apply cleanup_trace.
    - apply tidy_cleanup, Htidy.
    - apply cleanup_sets_flag. }
  split; [exact Htrace|]. unfold reset_calls. rewrite Htrace. reflexivity.
Qed.

End RefreshFacts.

(* ===================================================================== *)
(** ** Site keys                                                         *)
(* ===================================================================== *)

Module ClientFacts.
Import Client.

(** turnstile-client.test.ts, [isTestSiteKey] and [getSiteKey] *)
Example test_site_keys :
  map isTestSiteKey ["1x00000000000000000000AA"; ""; "   ";
                     "0x4AAAAAAB2Tn5Qf6KFSt94L"; "0x4AAAAAAB4V0l07Qx8HNYUX"]
  = [true; true; true; false; false] ∧
  map (λ k, getSiteKey k false) [None; Some ""; Some "   ";
                                 Some "0x4AAAAAAB2Tn5Qf6KFSt94L"]
  = ["1x00000000000000000000AA"; "1x00000000000000000000AA";
     "1x00000000000000000000AA"; "0x4AAAAAAB2Tn5Qf6KFSt94L"] ∧
  getSiteKey (Some "0x4AAAAAAB2Tn5Qf6KFSt94L") true = "1x00000000000000000000AA".
Proof. vm_compute. auto. Qed.

(** The key [getSiteKey] returns is never empty nor white space only; it
    is the test key or the key it was given; and it is a key [getSiteKey]
    returns unchanged. *)
Theorem getSiteKey_usable (siteKey : option string) (forceTest : bool) :
  let key := getSiteKey siteKey forceTest in
  key ≠ "" ∧ trim key ≠ "" ∧
  (key = TURNSTILE_TEST_SITE_KEY ∨ siteKey = Some key) ∧
  getSiteKey (Some key) false = key.
Proof.
  cbv zeta.
  assert (Htest : TURNSTILE_TEST_SITE_KEY ≠ "" ∧ trim TURNSTILE_TEST_SITE_KEY ≠ "" ∧
                  getSiteKey (Some TURNSTILE_TEST_SITE_KEY) false
                  = TURNSTILE_TEST_SITE_KEY)
    by (vm_compute; repeat split; discriminate).
  assert (Hcases : getSiteKey siteKey forceTest = TURNSTILE_TEST_SITE_KEY ∨
                   (siteKey = Some (getSiteKey siteKey forceTest) ∧
                    getSiteKey siteKey forceTest ≠ "" ∧
                    trim (getSiteKey siteKey forceTest) ≠ "")).
  { unfold getSiteKey.
    destruct (forceTest || negb (Js.truthy_str siteKey)
              || (trim (default "" siteKey) =? "")) eqn:Hcond; [left; reflexivity|].
    right.
    apply orb_false_elim in Hcond as [Hcond Htrim].
    apply orb_false_elim in Hcond as [_ Htruthy].
    apply negb_false_iff in Htruthy.
    destruct siteKey as [key|]; [|discriminate Htruthy].
    cbn [default from_option id] in *.
    split; [reflexivity|]. split; [|apply String.eqb_neq, Htrim].
    cbn in Htruthy. apply negb_true_iff, String.eqb_neq in Htruthy. exact Htruthy. }
  destruct Htest as (Hne & Htrim & Hfix).
  destruct Hcases as [-> | (Hgiven & Hne' & Htrim')].
  - split; [exact Hne|]. split; [exact Htrim|]. split; [left; reflexivity | exact Hfix].
  - set (key := getSiteKey siteKey forceTest) in *.
    split; [exact Hne'|]. split; [exact Htrim'|]. split; [right; exact Hgiven|].
    unfold getSiteKey. cbn [default from_option id orb Js.truthy_str].
    apply String.eqb_neq in Hne', Htrim'. rewrite Hne', Htrim'. reflexivity.
Qed.

(** Whether the key [getSiteKey] returns is a test key: exactly when the
    test key was forced, or no key was given, or the given key is itself
    one [isTestSiteKey] accepts. *)
Theorem isTestSiteKey_getSiteKey (siteKey : option string) (forceTest : bool) :
  isTestSiteKey (getSiteKey siteKey forceTest)
  = forceTest || from_option isTestSiteKey true siteKey.
Proof.
  assert (Htest : isTestSiteKey TURNSTILE_TEST_SITE_KEY = true) by reflexivity.
  unfold getSiteKey.
  destruct forceTest; [exact Htest|]. cbn [orb].
  destruct siteKey as [key|]; [|exact Htest]. cbn [default from_option id].
  destruct (negb (Js.truthy_str (Some key)) || (trim key =? "")) eqn:Hcond.
  - rewrite Htest. unfold isTestSiteKey.
    rewrite <- orb_assoc, Hcond. symmetry. apply orb_true_r.
  - reflexivity.
Qed.

End ClientFacts.

(* ===================================================================== *)
(** ** Token extraction: further properties                              *)
(* ===================================================================== *)

Module ExtractMore.
Import Js Extract Samples.

(** Extraction reads the body only through its decoded text. *)
Lemma same_decoded_body (P : Platform) (ev ev' : HandlerEvent) :
  headers ev = headers ev' →
  getTextBody P ev = getTextBody P ev' →
  getTurnstileToken P ev = getTurnstileToken P ev'.
Proof.
  intros Hh Hbody.
  assert (Hbuffer : getBodyBuffer P ev = getBodyBuffer P ev') by exact Hbody.
  unfold getTurnstileToken, parseMultipart, json_branch.
  rewrite Hh, Hbody, Hbuffer. reflexivity.
Qed.

(** A base64-flagged body is handled exactly as the text it decodes to:
    when the platform decodes the non-empty body [encoded] to [text],
    extraction gives the same outcome for the flagged event as for the
    event that carries [text] unflagged, whatever the headers. *)
Theorem base64_body_as_its_text (P : Platform) (h : option (gmap string string))
    (encoded text : string) :
  encoded ≠ "" →
  Buffer_from_base64 P encoded = text →
  getTurnstileToken P {| headers := h; body := Some encoded; isBase64Encoded := true |}
  = getTurnstileToken P {| headers := h; body := Some text; isBase64Encoded := false |}.
Proof.
  intros Hne Hdecode. apply same_decoded_body; [reflexivity|].
  unfold getTextBody. cbn [body isBase64Encoded truthy_str default from_option id].
  apply String.eqb_neq in Hne. rewrite Hne. cbn [negb]. rewrite Hdecode.
  destruct (String.eqb_spec text "") as [->|_]; reflexivity.
Qed.

Lemma base64_body_as_its_text_witness :
  getTurnstileToken node
    {| headers := Some form_headers;
       body := Some "Y2YtdHVybnN0aWxlLXJlc3BvbnNlPWVuY29kZWQtdG9rZW4tMTIz";
       isBase64Encoded := true |}
  = getTurnstileToken node
      {| headers := Some form_headers;
         body := Some "cf-turnstile-response=encoded-token-123";
         isBase64Encoded := false |}.
Proof.
  apply (base64_body_as_its_text node (Some form_headers)).
  - discriminate.
  - vm_compute. reflexivity.
Defined.

(** Extraction rejects in two cases only: the event has no headers
    object (a TypeError), or the content type is multipart and the
    multipart parser reports an error. A malformed JSON or urlencoded
    body never rejects. *)
Theorem rejection_causes (P : Platform) (ev : HandlerEvent) (e : exception) :
  getTurnstileToken P ev = Throw e →
  (headers ev = None ∧ e = TypeError) ∨
  (∃ h, headers ev = Some h ∧
        truthy_str (header_token h) = false ∧
        includes (content_type h) "multipart/form-data" = true ∧
        busboy P (content_type h) (getBodyBuffer P ev) = BusboyError ∧
        e = LibraryError).
Proof.
  unfold getTurnstileToken. destruct (headers ev) as [h|] eqn:Hh;
    cbn [default from_option id]; cbv zeta.
  - destruct (truthy_str (header_token h)) eqn:Htok; [discriminate|].
    destruct (includes (content_type h) "multipart/form-data") eqn:Hm.
    + unfold parseMultipart.
      destruct (busboy P (content_type h) (getBodyBuffer P ev)) eqn:Hbb;
        [discriminate|].
      intros [= <-]. right. exists h. repeat split; assumption.
    + destruct (includes (content_type h) "application/x-www-form-urlencoded");
        [discriminate|].
      destruct (includes (content_type h) "application/json"); [|discriminate].
      unfold try_catch. destruct (json_branch P ev); discriminate.
  - change (header_token ∅) with (@None string). cbn [truthy_str].
    intros [= <-]. left. split; reflexivity.
Qed.

Lemma rejection_causes_witness :
  (headers (event multipart_headers "not multipart" false) = None ∧
   LibraryError = TypeError) ∨
  (∃ h, headers (event multipart_headers "not multipart" false) = Some h ∧
        truthy_str (header_token h) = false ∧
        includes (content_type h) "multipart/form-data" = true ∧
        busboy node (content_type h)
               (getBodyBuffer node (event multipart_headers "not multipart" false))
        = BusboyError ∧
        LibraryError = LibraryError).
Proof.
  apply (rejection_causes node (event multipart_headers "not multipart" false)
           LibraryError).
  vm_compute. reflexivity.
Defined.

End ExtractMore.

(* ===================================================================== *)
(** ** Verification: further properties                                  *)
(* ===================================================================== *)

Module VerifyMore.
Import Js Verify Samples.

Ltac one_of_five :=
  repeat first [apply list_elem_of_here | apply list_elem_of_further].

(** Success is reported only on the remote end's word: the secret and the
    token were truthy, the one request was answered with an ok response,
    and its body parsed to an object whose [success] member is truthy. *)
Theorem success_only_when_remote_confirms (remote : Request → fetch_outcome)
    (token secretKey remoteIp : option string) (w : World)
    (r : VerificationResult) :
  fst (verifyTurnstile remote token secretKey remoteIp w) = Normal r →
  success r = true →
  truthy_str secretKey = true ∧ truthy_str token = true ∧
  ∃ response ms v,
    remote (request_of token secretKey remoteIp) = FetchResolves response ∧
    ok response = true ∧
    json response = Some (JObject ms) ∧
    member "success" ms = Some v ∧ truthy v = true.
Proof.
  intros Hout Hsuccess.
  destruct (truthy_str secretKey) eqn:Hsecret.
  2:{ unfold verifyTurnstile in Hout. rewrite Hsecret in Hout. cbn in Hout.
      injection Hout as <-. discriminate Hsuccess. }
  destruct (truthy_str token) eqn:Htoken.
  2:{ unfold verifyTurnstile in Hout. rewrite Hsecret, Htoken in Hout. cbn in Hout.
      injection Hout as <-. discriminate Hsuccess. }
  split; [reflexivity|]. split; [reflexivity|].
  rewrite (VerifyFacts.verify_truthy remote _ _ _ w Hsecret Htoken) in Hout.
  cbv zeta in Hout.
  destruct (remote _) as [|response];
    [cbn in Hout; injection Hout as <-; discriminate Hsuccess|].
  destruct (ok response) eqn:Hok;
    [|cbn in Hout; injection Hout as <-; discriminate Hsuccess].
  destruct (json response) as [data|] eqn:Hjson;
    [|cbn in Hout; injection Hout as <-; discriminate Hsuccess].
  destruct data as [| | | | |ms];
    try (cbn in Hout; injection Hout as <-; discriminate Hsuccess).
  destruct (member "success" ms) as [v|] eqn:Hmember; cbn in Hout.
  - destruct (truthy v) eqn:Hv;
      [|cbn in Hout; injection Hout as <-; discriminate Hsuccess].
    exists response, ms, v. repeat split; assumption.
  - injection Hout as <-. discriminate Hsuccess.
Qed.

Lemma success_only_when_remote_confirms_witness :
  ∃ response ms v,
    always (answer true 200 (Some (JObject [("success", JBool true)])))
           (request_of (Some "token") (Some "secret-key") None)
    = FetchResolves response ∧
    ok response = true ∧
    json response = Some (JObject ms) ∧
    member "success" ms = Some v ∧ truthy v = true.
Proof.
  apply (success_only_when_remote_confirms
           (always (answer true 200 (Some (JObject [("success", JBool true)]))))
           (Some "token") (Some "secret-key") None quiet verified);
    reflexivity.
Defined.

(** Whatever the remote end does, the caller gets one of five fixed
    results: nothing of the response (status, vendor error codes, parse
    errors) reaches it, and a result has an [error] text exactly when
    [success] is false. *)
Theorem result_is_one_of_five (remote : Request → fetch_outcome)
    (token secretKey remoteIp : option string) (w : World) :
  ∃ r, fst (verifyTurnstile remote token secretKey remoteIp w) = Normal r ∧
       r ∈ [verified; not_configured; token_missing;
            verification_failed; verification_error] ∧
       (success r = true ↔ error r = None).
Proof.
  assert (Hfive : ∀ r, r ∈ [verified; not_configured; token_missing;
                            verification_failed; verification_error] →
                       (success r = true ↔ error r = None)).
  { intros r Hr. rewrite !elem_of_cons, elem_of_nil in Hr.
    destruct Hr as [->|[->|[->|[->|[->|[]]]]]]; cbn; split; congruence. }
  assert (Hgoal : ∃ r, fst (verifyTurnstile remote token secretKey remoteIp w)
                       = Normal r ∧
                       r ∈ [verified; not_configured; token_missing;
                            verification_failed; verification_error]).
  { destruct (truthy_str secretKey) eqn:Hsecret;
      [destruct (truthy_str token) eqn:Htoken|].
    - rewrite (VerifyFacts.verify_truthy remote _ _ _ w Hsecret Htoken). cbv zeta.
      destruct (remote _) as [|response];
        [eexists; split; [reflexivity | one_of_five]|].
      destruct (ok response); [|eexists; split; [reflexivity | one_of_five]].
      destruct (json response) as [data|];
        [|eexists; split; [reflexivity | one_of_five]].
      destruct data as [| | | | |ms];
        try (eexists; split; [reflexivity | one_of_five]).
      destruct (from_option truthy false (member "success" ms));
        eexists; split; try reflexivity; one_of_five.
    - unfold verifyTurnstile. rewrite Hsecret, Htoken. cbn.
      eexists; split; [reflexivity | one_of_five].
    - unfold verifyTurnstile. rewrite Hsecret. cbn.
      eexists; split; [reflexivity | one_of_five]. }
  destruct Hgoal as (r & Hr & Hin). exists r. auto.
Qed.

(** What a call writes to the console: nothing when it succeeds or when
    the token is missing, and exactly one line for every other result. *)
Theorem console_lines (remote : Request → fetch_outcome)
    (token secretKey remoteIp : option string) (w : World) :
  let out := verifyTurnstile remote token secretKey remoteIp w in
  ∃ lines,
    console (snd out) = (console w ++ lines)%list ∧
    ((fst out = Normal verified ∨ fst out = Normal token_missing) ∧ lines = [] ∨
     (fst out ≠ Normal verified ∧ fst out ≠ Normal token_missing) ∧
     List.length lines = 1%nat).
Proof.
  cbv zeta.
  destruct (truthy_str secretKey) eqn:Hsecret;
    [destruct (truthy_str token) eqn:Htoken|].
  - rewrite (VerifyFacts.verify_truthy remote _ _ _ w Hsecret Htoken). cbv zeta.
    destruct (remote _) as [|response].
    { eexists [_]. split; [reflexivity|]. right. repeat split; discriminate. }
    destruct (ok response).
    2:{ eexists [_]. split; [reflexivity|]. right. repeat split; discriminate. }
    destruct (json response) as [data|].
    2:{ eexists [_]. split; [reflexivity|]. right. repeat split; discriminate. }
    destruct data as [| | | | |ms];
      try (eexists [_]; split; [reflexivity|]; right; repeat split; discriminate).
    destruct (from_option truthy false (member "success" ms)).
    + exists []. split; [cbn; rewrite List.app_nil_r; reflexivity|].
      left. split; [left|]; reflexivity.
    + eexists [_]. split; [reflexivity|]. right. repeat split; discriminate.
  - unfold verifyTurnstile. rewrite Hsecret, Htoken. cbn.
    exists []. split; [rewrite List.app_nil_r; reflexivity|].
    left. split; [right|]; reflexivity.
  - unfold verifyTurnstile. rewrite Hsecret. cbn.
    eexists [_]. split; [reflexivity|]. right. repeat split; discriminate.
Qed.

End VerifyMore.

(* ===================================================================== *)
(** ** Auto-refresh: further properties                                  *)
(* ===================================================================== *)

Module RefreshMore.
Import Refresh Shapes Samples.
Local Open Scope N_scope.

(** *** A session without timers *)

Section Quiet.
Variable widget : bool.
Variable options : AutoRefreshOptions.

Lemma run_cons (a : step) (steps : list step) (s : State) :
  run widget options (a :: steps) s
  = run widget options steps (do_step widget options s a).
Proof. reflexivity. Qed.



Lemma tick_without_timers (s : State) :
  timers s = [] → tick widget options s = set_now (now s + 1) s.
Proof. intros Hnone. unfold tick, due_now. cbn. rewrite Hnone. reflexivity. Qed.

Lemma advance_without_timers (ms : N) (s : State) :
  timers s = [] →
  timers (advance widget options ms s) = [] ∧
  trace (advance widget options ms s) = trace s ∧
  loadListener (advance widget options ms s) = loadListener s.
Proof.
  intros Hnone. unfold advance.
  induction ms as [|ms IH] using N.peano_ind; [auto|].
  rewrite N.iter_succ. destruct IH as (Htimers & Htrace & Hload).
  rewrite (tick_without_timers _ Htimers). cbn. auto.
Qed.

Lemma cleanup_without_timers (s : State) :
  timers s = [] →
  timers (cleanup s) = [] ∧ trace (cleanup s) = trace s ∧
  loadListener (cleanup s) = loadListener s.
Proof.
  intros Hnone. unfold cleanup. destruct (isCleanedUp s); [auto|]. cbn.
  destruct (turnstileResetInterval s); cbn; destruct (checkWidgetInterval s); cbn;
    rewrite ?Hnone; auto.
Qed.

(** Without timers nothing happens, unless a registered load handler is
    run. *)
Lemma run_without_timers (steps : list step) (s : State) :
  timers s = [] →
  loadListener s = false ∨ forallb (λ a, negb (is_load a)) steps = true →
  timers (run widget options steps s) = [] ∧
  trace (run widget options steps s) = trace s.
Proof.
  revert s. induction steps as [|a steps IH]; intros s Hnone Hload; [auto|].
  rewrite run_cons.
  assert (Hstep : timers (do_step widget options s a) = [] ∧
                  trace (do_step widget options s a) = trace s ∧
                  loadListener (do_step widget options s a) = loadListener s).
  { destruct a; cbn [do_step].
    - apply advance_without_timers, Hnone.
    - apply cleanup_without_timers, Hnone.
    - destruct Hload as [Hload | Hsteps]; [|discriminate Hsteps].
      rewrite Hload. auto.
    - destruct (unloadListener s); [apply cleanup_without_timers, Hnone | auto].
    - auto.
    - auto. }
  destruct Hstep as (Htimers & Htrace & Hlistener).
  rewrite <- Htrace. apply IH; [exact Htimers|].
  rewrite Hlistener. destruct Hload as [Hload | Hsteps]; [left; exact Hload|].
  right. cbn [forallb] in Hsteps. apply andb_prop in Hsteps. apply Hsteps.
Qed.

End Quiet.

(** If the widget identifier has not appeared (the attribute is missing
    or empty) during the ten seconds after a setup on a page where the
    script is loaded, the initialization poll is given up: no timer is
    left, and whatever happens later, the identifier appearing included,
    no reset is ever called. *)
Theorem identifier_wait_expires (widget : bool) (options : AutoRefreshOptions)
    (a : TurnstileAPI) (widgetId : option string) (later : list step) :
  Js.truthy_str widgetId = false →
  let s := run widget options (Wait 10000 :: later)
               (setupAutoRefresh widget (page (Some a) widgetId)) in
  timers s = [] ∧ reset_calls s = [].
Proof.
  intros Hid. cbv zeta.
  rewrite run_cons. cbn [do_step].
  assert (Hexpired :
    ∀ s, s = advance widget options 10000
               (setupAutoRefresh widget (page (Some a) widgetId)) →
         timers s = [] ∧ loadListener s = false ∧ trace s = []).
  { intros s ->.
    destruct widgetId as [[|c w]|]; [|discriminate Hid|];
      destruct widget; vm_compute; auto. }
  destruct (Hexpired _ eq_refl) as (Hnone & Hload & Htrace).
  destruct (run_without_timers widget options later _ Hnone (or_introl Hload))
    as [Htimers Hsame].
  split; [exact Htimers|]. unfold reset_calls. rewrite Hsame, Htrace. reflexivity.
Qed.

Lemma identifier_wait_expires_witness :
  let s := run true every_second
               [Wait 10000; WidgetRendered "widget-123"; Wait 60000]
               (setupAutoRefresh true (page (Some api) None)) in
  timers s = [] ∧ reset_calls s = [].
Proof.
  apply (identifier_wait_expires true every_second api None
           [WidgetRendered "widget-123"; Wait 60000]).
  reflexivity.
Defined.

(** *** What the timer operations do to the table *)

Lemma in_clearInterval (h : handle) (s : State) (t : timer) :
  In t (timers (clearInterval h s)) → In t (timers s) ∧ id t ≠ h.
Proof.
  cbn. intros Ht. apply List.filter_In in Ht as [Hin Hne].
  split; [exact Hin|]. apply negb_true_iff, N.eqb_neq in Hne. exact Hne.
Qed.

Lemma in_reschedule (h : handle) (p : N) (s : State) (t : timer) :
  In t (timers (reschedule h p s)) →
  ∃ t0, In t0 (timers s) ∧ id t = id t0 ∧ action t = action t0 ∧
        every t = every t0 ∧
        ((id t0 ≠ h ∧ t = t0) ∨ (id t0 = h ∧ due t = now s + p)).
Proof.
  cbn. intros Ht. apply List.in_app_or in Ht as [Ht | Ht].
  - apply List.filter_In in Ht as [Hin Hne].
    apply negb_true_iff, N.eqb_neq in Hne.
    exists t. repeat split; auto.
  - apply List.in_map_iff in Ht as (t0 & <- & Ht0).
    apply List.filter_In in Ht0 as [Hin Heq]. apply N.eqb_eq in Heq.
    exists t0. cbn. repeat split; auto.
Qed.

(** A timer under another handle stays; the timer under the handle is
    set again. *)
Lemma reschedule_keeps (h : handle) (p : N) (s : State) (t : timer) :
  In t (timers s) → id t ≠ h → In t (timers (reschedule h p s)).
Proof.
  intros Hin Hne. cbn. apply List.in_or_app. left.
  apply List.filter_In. split; [exact Hin|].
  apply negb_true_iff, N.eqb_neq, Hne.
Qed.


Lemma in_schedule (a : callback) (delay : N) (e : option N) (s : State) (t : timer) :
  In t (timers (snd (schedule a delay e s))) →
  In t (timers s) ∨ action t = a.
Proof.
  cbn. intros Ht. apply List.in_app_or in Ht as [Ht|[<-|[]]]; [left; exact Ht|].
  right. reflexivity.
Qed.

Lemma clearInterval_keeps (h : handle) (s : State) (t : timer) :
  In t (timers s) → id t ≠ h → In t (timers (clearInterval h s)).
Proof.
  intros Hin Hne. cbn. apply List.filter_In. split; [exact Hin|].
  apply negb_true_iff, N.eqb_neq, Hne.
Qed.

(** *** The wait for the vendor script *)

Section ScriptWait.
Variable widget : bool.
Variable options : AutoRefreshOptions.

Lemma script_poll_handle (t : timer) (h : handle) :
  script_poll t → id t = h → h = 2 → t = script_expiry.
Proof.
  intros [Ht | [Hid _]] Hh H2; [exact Ht|]. rewrite Hid in Hh. subst h. discriminate H2.
Qed.

Lemma polling_clear_both (s : State) :
  polling s → timers (clearInterval 1 (clearInterval 2 s)) = [].
Proof.
  intros (_ & _ & _ & _ & Hkinds).
  destruct (timers (clearInterval 1 (clearInterval 2 s))) as [|t l] eqn:Hleft;
    [reflexivity|].
  assert (Hin : In t (timers (clearInterval 1 (clearInterval 2 s))))
    by (rewrite Hleft; left; reflexivity).
  apply in_clearInterval in Hin as [Hin Hne1].
  apply in_clearInterval in Hin as [Hin Hne2].
  destruct (Hkinds t Hin) as [-> | [Hid _]]; [contradiction Hne2; reflexivity|].
  contradiction.
Qed.

Lemma polling_same_timers (s s' : State) :
  polling s →
  turnstile s' = turnstile s →
  turnstileResetInterval s' = turnstileResetInterval s →
  checkWidgetInterval s' = checkWidgetInterval s →
  trace s' = trace s →
  (∀ t, In t (timers s') → script_poll t) →
  polling s'.
Proof.
  intros (Hapi & Hreset & Hpoll & Htrace & _) Hapi' Hreset' Hpoll' Htrace' Hkinds.
  unfold polling. rewrite Hapi', Hreset', Hpoll', Htrace'.
  repeat split; assumption.
Qed.

Lemma checkScript_without_script (h : handle) (s : State) :
  turnstile s = None → checkScript widget h s = s.
Proof.
  intros Hapi. unfold checkScript.
  destruct (bool_decide_reflect (is_Some (turnstile s))) as [[x Hx]|_];
    [rewrite Hapi in Hx; discriminate Hx | reflexivity].
Qed.

(** One timer fires during the wait. *)
Lemma fire_polling (s : State) (h : handle) :
  polling s →
  polling (fire widget options s h) ∧
  now (fire widget options s h) = now s ∧
  (timers s = [] → timers (fire widget options s h) = []) ∧
  (In script_expiry (timers s) → now s ≠ 5000 →
   In script_expiry (timers (fire widget options s h))) ∧
  (In script_expiry (timers s) → h = 2 → now s = 5000 →
   timers (fire widget options s h) = []).
Proof.
  intros Hpolling. pose proof Hpolling as (Hapi & Hreset & Hpoll & Htrace & Hkinds).
  unfold fire. destruct (find _ (timers s)) as [t|] eqn:Hfind.
  - apply List.find_some in Hfind as [Hin Hid]. apply N.eqb_eq in Hid.
    destruct (due t =? now s) eqn:Hdue.
    + apply N.eqb_eq in Hdue. destruct (Hkinds t Hin) as [-> | [Hone Haction]].
      * cbn in Hid, Hdue. subst h. cbn [every action script_expiry run_callback].
        pose proof (polling_clear_both s Hpolling) as Hnone.
        split.
        { apply (polling_same_timers s); try reflexivity; [exact Hpolling|].
          rewrite Hnone. intros t []. }
        split; [reflexivity|]. split; [intros _; exact Hnone|].
        split; [intros _ Hnot; contradiction Hnot; symmetry; exact Hdue|].
        intros _ _ _. exact Hnone.
      * rewrite Hone in Hid. subst h. rewrite Haction. cbn [run_callback].
        destruct (every t) as [p|].
        { rewrite checkScript_without_script by exact Hapi.
          split.
          { apply (polling_same_timers s); try reflexivity; [exact Hpolling|].
            intros t' Ht'.
            apply in_reschedule in Ht' as (t0 & Hin0 & Hid0 & Haction0 & _ & Hcase).
            destruct Hcase as [[_ ->] | [Hh _]]; [apply Hkinds, Hin0|].
            right. destruct (Hkinds t0 Hin0) as [-> | [_ Ha0]]; [discriminate Hh|].
            rewrite Hid0, Haction0. auto. }
          split; [reflexivity|].
          split; [intros Hnone; rewrite Hnone in Hin; destruct Hin|].
          split; [|intros _ Htwo; discriminate Htwo].
          intros Hexp _. apply reschedule_keeps; [exact Hexp | discriminate]. }
        { rewrite checkScript_without_script by exact Hapi.
          split.
          { apply (polling_same_timers s); try reflexivity; [exact Hpolling|].
            intros t' Ht'. apply in_clearInterval in Ht' as [Ht' _].
            apply Hkinds, Ht'. }
          split; [reflexivity|].
          split; [intros Hnone; rewrite Hnone in Hin; destruct Hin|].
          split; [|intros _ Htwo; discriminate Htwo].
          intros Hexp _. apply clearInterval_keeps; [exact Hexp | discriminate]. }
    + split; [exact Hpolling|]. split; [reflexivity|]. split; [auto|].
      split; [auto|]. intros _ Htwo Hnow.
      rewrite (script_poll_handle t h (Hkinds t Hin) Hid Htwo) in Hdue.
      cbn in Hdue. rewrite Hnow in Hdue. discriminate Hdue.
  - split; [exact Hpolling|]. split; [reflexivity|]. split; [auto|].
    split; [auto|]. intros Hexp Htwo _.
    pose proof (List.find_none _ _ Hfind _ Hexp) as Hno. subst h. discriminate Hno.
Qed.

(** The timers due at one instant fire. *)
Lemma fold_fire_polling (hs : list handle) (s : State) :
  polling s →
  polling (fold_left (fire widget options) hs s) ∧
  now (fold_left (fire widget options) hs s) = now s ∧
  (timers s = [] → timers (fold_left (fire widget options) hs s) = []) ∧
  (In script_expiry (timers s) → now s ≠ 5000 →
   In script_expiry (timers (fold_left (fire widget options) hs s))) ∧
  (In script_expiry (timers s) → In 2 hs → now s = 5000 →
   timers (fold_left (fire widget options) hs s) = []).
Proof.
  revert s. induction hs as [|h hs IH]; intros s Hpolling.
  - cbn [fold_left]. split; [exact Hpolling|]. split; [reflexivity|].
    split; [auto|]. split; [auto|]. intros _ [].
  - cbn [fold_left].
    destruct (fire_polling s h Hpolling) as (Hp & Hnow & Hnone & Hkeep & Hend).
    destruct (IH _ Hp) as (Hp' & Hnow' & Hnone' & Hkeep' & Hend').
    split; [exact Hp'|]. split; [congruence|]. split; [auto|].
    split.
    + intros Hexp Hnot. apply Hkeep'; [apply Hkeep; assumption | congruence].
    + intros Hexp [Hh | Hin] Hfive.
      * apply Hnone', Hend; auto.
      * destruct (N.eq_dec h 2) as [-> | Hother]; [apply Hnone', Hend; auto|].
        assert (Hstill : In script_expiry (timers (fire widget options s h))).
        { clear - Hpolling Hexp Hother.
          pose proof Hpolling as (Hapi & _ & _ & _ & Hkinds).
          unfold fire. destruct (find _ (timers s)) as [t|] eqn:Hfind; [|exact Hexp].
          apply List.find_some in Hfind as [Hin Hid]. apply N.eqb_eq in Hid.
          destruct (due t =? now s); [|exact Hexp].
          destruct (Hkinds t Hin) as [-> | [Hone Haction]];
            [contradiction Hother; symmetry; exact Hid|].
          rewrite Haction. cbn [run_callback].
          destruct (every t) as [p|];
            rewrite checkScript_without_script by exact Hapi;
            [apply reschedule_keeps | apply clearInterval_keeps];
            first [exact Hexp | cbn; congruence]. }
        apply Hend'; [exact Hstill | exact Hin | congruence].
Qed.

Lemma tick_awaiting (s : State) :
  awaiting_script s → awaiting_script (tick widget options s).
Proof.
  intros (Hpolling & Hfirst & Hthen). unfold tick. cbv zeta.
  set (s0 := set_now (now s + 1) s).
  assert (Hp0 : polling s0).
  { apply (polling_same_timers s); try reflexivity; [exact Hpolling|].
    apply Hpolling. }
  assert (Hnow0 : now s0 = now s + 1) by reflexivity.
  assert (Htimers0 : timers s0 = timers s) by reflexivity.
  destruct (fold_fire_polling (due_now s0) s0 Hp0) as (Hp & Hnow & Hnone & Hkeep & Hend).
  revert Hp Hnow Hnone Hkeep Hend.
  generalize (fold_left (fire widget options) (due_now s0) s0).
  intros s' Hp Hnow Hnone Hkeep Hend.
  rewrite Htimers0 in *. rewrite Hnow0 in *.
  split; [exact Hp|]. rewrite Hnow. split.
  - intros Hlt. apply Hkeep; [apply Hfirst|]; lia.
  - intros Hge. destruct (N.eq_dec (now s + 1) 5000) as [Hfive | Hlate].
    + assert (Hexp : In script_expiry (timers s)) by (apply Hfirst; lia).
      apply Hend; [exact Hexp | | exact Hfive].
      unfold due_now. apply List.in_map_iff. exists script_expiry.
      split; [reflexivity|]. apply List.filter_In. rewrite Htimers0.
      split; [exact Hexp|]. rewrite Hnow0, Hfive. reflexivity.
    + apply Hnone, Hthen. lia.
Qed.

Lemma advance_awaiting (ms : N) (s : State) :
  awaiting_script s → awaiting_script (advance widget options ms s).
Proof.
  intros Hs. unfold advance.
  induction ms as [|ms IH] using N.peano_ind; [exact Hs|].
  rewrite N.iter_succ. apply tick_awaiting, IH.
Qed.

Lemma cleanup_awaiting (s : State) :
  awaiting_script s → awaiting_script (cleanup s).
Proof.
  intros Hs. pose proof Hs as ((Hapi & Hreset & Hpoll & Htrace & Hkinds) & Hrest).
  unfold cleanup. destruct (isCleanedUp s); [exact Hs|]. cbn.
  rewrite Hreset. cbn. rewrite Hpoll.
  split; [|exact Hrest]. repeat split; assumption.
Qed.

(** Nothing but a load event or the script appearing ends the wait. *)
Lemma run_awaiting (steps : list step) (s : State) :
  awaiting_script s →
  forallb (λ a, negb (is_load a)) steps = true →
  forallb (λ a, negb (is_script_loaded a)) steps = true →
  awaiting_script (run widget options steps s).
Proof.
  revert s. induction steps as [|a steps IH]; intros s Hs Hload Hscript; [exact Hs|].
  rewrite run_cons. cbn [forallb] in Hload, Hscript.
  apply andb_prop in Hload as [Ha Hload]. apply andb_prop in Hscript as [Hb Hscript].
  apply IH; [|exact Hload | exact Hscript].
  destruct a; cbn [do_step]; try discriminate Ha; try discriminate Hb.
  - apply advance_awaiting, Hs.
  - apply cleanup_awaiting, Hs.
  - destruct (unloadListener s); [apply cleanup_awaiting|]; exact Hs.
  - destruct Hs as ((Hapi & Hreset & Hpoll & Htrace & Hkinds) & Hrest).
    split; [|exact Hrest]. repeat split; assumption.
Qed.

Lemma setup_awaiting (widgetId : option string) :
  awaiting_script (setupAutoRefresh widget (page None widgetId)).
Proof.
  split; [|split].
  - repeat split. intros t [<-|[<-|[]]]; [right; split; reflexivity | left; reflexivity].
  - intros _. right. left. reflexivity.
  - intros Hlate. vm_compute in Hlate. contradiction Hlate. reflexivity.
Qed.

End ScriptWait.

(** The wait for the vendor script ends after five seconds. If, after a
    setup on a fresh page without the script, the script has not appeared
    by the time five seconds have passed, and the page's load event does
    not fire at any time, then the script poll is given up: no timer is
    left and nothing happens any more, even when the script and the
    identifier appear later. During the five seconds anything else may
    happen: time passes in any number of pieces, the identifier appears,
    the session is torn down. *)
Theorem script_wait_expires (widget : bool) (options : AutoRefreshOptions)
    (widgetId : option string) (before later : list step) :
  forallb (λ a, negb (is_load a)) (before ++ later) = true →
  forallb (λ a, negb (is_script_loaded a)) before = true →
  5000 ≤ now (run widget options before
                (setupAutoRefresh widget (page None widgetId))) →
  let s := run widget options (before ++ later)
               (setupAutoRefresh widget (page None widgetId)) in
  timers s = [] ∧ trace s = [].
Proof.
  intros Hload Hscript Hfive. cbv zeta.
  rewrite forallb_app in Hload. apply andb_prop in Hload as [Hbefore Hlater].
  unfold run at 1 2. rewrite fold_left_app.
  pose proof (run_awaiting widget options before _ (setup_awaiting widget widgetId)
                Hbefore Hscript) as Hs.
  unfold run in Hs, Hfive. revert Hs Hfive.
  generalize (fold_left (do_step widget options) before
                (setupAutoRefresh widget (page None widgetId))).
  intros s1 ((_ & _ & _ & Htrace & _) & _ & Hthen) Hfive.
  destruct (run_without_timers widget options later s1 (Hthen Hfive)
              (or_intror Hlater)) as [Htimers Hsame].
  unfold run in Htimers, Hsame. split; [exact Htimers|].
  rewrite Hsame. exact Htrace.
Qed.

Lemma script_wait_expires_witness :
  let s := run true every_second
               ([Wait 3000; WidgetRendered "widget-123"; Wait 2000]
                ++ [ScriptLoaded api; Wait 60000])
               before_script in
  timers s = [] ∧ trace s = [].
Proof.
  apply (script_wait_expires true every_second None
           [Wait 3000; WidgetRendered "widget-123"; Wait 2000]
           [ScriptLoaded api; Wait 60000]).
  - reflexivity.
  - reflexivity.
  - vm_compute. discriminate.
Defined.

(** A load event during the five seconds keeps the session alive: its
    delayed setup finds a script that appeared after the script poll was
    given up, and resets follow. *)
Example load_event_outlives_script_wait :
  reset_calls (run true every_second
                 [Wait 4800; Load; Wait 300; ScriptLoaded api;
                  WidgetRendered "widget-123"; Wait 1500]
                 before_script)
  = [ResetCalled 6400 "widget-123"].
Proof. vm_compute. reflexivity. Qed.

(** *** A null widget *)

Section NullWidget.
Variable options : AutoRefreshOptions.

Lemma waiting_clearInterval (h : handle) (s : State) :
  waiting s → waiting (clearInterval h s).
Proof.
  intros (Hkinds & Hreset & Hpoll & Htrace). repeat split; try assumption.
  intros t Ht. apply in_clearInterval in Ht as [Ht _]. apply Hkinds, Ht.
Qed.

Lemma waiting_reschedule (h : handle) (p : N) (s : State) :
  waiting s → waiting (reschedule h p s).
Proof.
  intros (Hkinds & Hreset & Hpoll & Htrace). repeat split; try assumption.
  intros t Ht. apply in_reschedule in Ht as (t0 & Hin & _ & Haction & _).
  unfold script_timer. rewrite Haction. apply Hkinds, Hin.
Qed.

Lemma waiting_schedule (a : callback) (delay : N) (e : option N) (s : State) :
  waiting s →
  match a with CheckScript | CheckScriptExpiry _ | DelayedSetupReset => True
             | _ => False end →
  waiting (snd (schedule a delay e s)).
Proof.
  intros (Hkinds & Hreset & Hpoll & Htrace) Ha. repeat split; try assumption.
  intros t Ht. apply in_schedule in Ht as [Ht | Haction]; [apply Hkinds, Ht|].
  unfold script_timer. rewrite Haction. destruct a; (reflexivity || contradiction).
Qed.

Lemma waiting_fire (s : State) (h : handle) :
  waiting s → waiting (fire false options s h).
Proof.
  intros Hwait. unfold fire.
  destruct (find _ (timers s)) as [t|] eqn:Hfind; [|exact Hwait].
  destruct (due t =? now s); [|exact Hwait].
  apply List.find_some in Hfind as [Hin _].
  assert (Hkind : script_timer t = true) by (apply Hwait, Hin).
  assert (Hbefore : waiting (match every t with
                             | Some p => reschedule h p s
                             | None => clearInterval h s
                             end)).
  { destruct (every t); [apply waiting_reschedule | apply waiting_clearInterval];
      exact Hwait. }
  unfold script_timer in Hkind.
  destruct (action t); try discriminate Hkind; cbn [run_callback].
  - exact Hbefore.
  - unfold checkScript. destruct (bool_decide _); [|exact Hbefore].
    apply waiting_clearInterval, Hbefore.
  - apply waiting_clearInterval, Hbefore.
Qed.

Lemma waiting_tick (s : State) : waiting s → waiting (tick false options s).
Proof.
  intros Hwait. unfold tick.
  assert (Hfold : ∀ hs s', waiting s' → waiting (fold_left (fire false options) hs s')).
  { induction hs as [|h hs IH]; intros s' Hs'; [exact Hs'|].
    cbn [fold_left]. apply IH, waiting_fire, Hs'. }
  apply Hfold. exact Hwait.
Qed.

Lemma waiting_advance (ms : N) (s : State) :
  waiting s → waiting (advance false options ms s).
Proof.
  intros Hwait. unfold advance.
  induction ms as [|ms IH] using N.peano_ind; [exact Hwait|].
  rewrite N.iter_succ. apply waiting_tick, IH.
Qed.

Lemma waiting_cleanup (s : State) : waiting s → waiting (cleanup s).
Proof.
  intros (Hkinds & Hreset & Hpoll & Htrace). unfold cleanup.
  destruct (isCleanedUp s); [repeat split; assumption|]. cbn.
  rewrite Hreset. cbn. rewrite Hpoll. repeat split; assumption.
Qed.

Lemma waiting_run (steps : list step) (s : State) :
  waiting s → waiting (run false options steps s).
Proof.
  revert s. induction steps as [|a steps IH]; intros s Hwait; [exact Hwait|].
  rewrite run_cons. apply IH. destruct a; cbn [do_step].
  - apply waiting_advance, Hwait.
  - apply waiting_cleanup, Hwait.
  - destruct (loadListener s); [|exact Hwait].
    apply (waiting_schedule DelayedSetupReset 500 None s Hwait I).
  - destruct (unloadListener s); [apply waiting_cleanup|]; exact Hwait.
  - exact Hwait.
  - exact Hwait.
Qed.

Lemma waiting_setup (a : option TurnstileAPI) (widgetId : option string) :
  waiting (setupAutoRefresh false (page a widgetId)).
Proof.
  destruct a as [a|]; cbn.
  - repeat split. intros t [].
  - repeat split. intros t [<-|[<-|[]]]; reflexivity.
Qed.

End NullWidget.

(** With a null widget the controller is a no-op: on a fresh page,
    whether or not the script is or becomes available, the session never
    sets an initialization poll or a reset timer and never does anything
    that is recorded; in particular it never calls reset. *)
Theorem null_widget_is_idle (options : AutoRefreshOptions)
    (a : option TurnstileAPI) (widgetId : option string) (steps : list step) :
  let s := run false options steps (setupAutoRefresh false (page a widgetId)) in
  trace s = [] ∧ active_polls s = 0%nat ∧ active_resets s = 0%nat.
Proof.
  cbv zeta.
  destruct (waiting_run options steps _ (waiting_setup a widgetId))
    as (Hkinds & _ & _ & Htrace).
  split; [exact Htrace|].
  split; apply RefreshFacts.count_zero; intros t Ht; specialize (Hkinds t Ht);
    unfold script_timer in Hkinds; [unfold is_poll | unfold is_reset];
    destruct (action t); (reflexivity || discriminate Hkinds).
Qed.

(** *** The identifier passed to reset *)

Section Named.
Variable widget : bool.
Variable options : AutoRefreshOptions.

Lemma well_named_clearInterval (h : handle) (s : State) :
  well_named s → well_named (clearInterval h s).
Proof.
  intros [Htimers Htrace]. split; [|exact Htrace].
  intros t Ht. apply in_clearInterval in Ht as [Ht _]. apply Htimers, Ht.
Qed.

Lemma well_named_reschedule (h : handle) (p : N) (s : State) :
  well_named s → well_named (reschedule h p s).
Proof.
  intros [Htimers Htrace]. split; [|exact Htrace].
  intros t Ht. apply in_reschedule in Ht as (t0 & Hin & _ & -> & _).
  apply Htimers, Hin.
Qed.

Lemma well_named_schedule (a : callback) (delay : N) (e : option N) (s : State) :
  well_named s → names_widget a = true → well_named (snd (schedule a delay e s)).
Proof.
  intros [Htimers Htrace] Ha. split; [|exact Htrace].
  intros t Ht. apply in_schedule in Ht as [Ht | ->]; [apply Htimers, Ht | exact Ha].
Qed.

Lemma well_named_record (e : Refresh.event) (s : State) :
  well_named s → reset_named e = true → well_named (record e s).
Proof.
  intros [Htimers Htrace] He. split; [exact Htimers|].
  intros e' Hin. cbn in Hin. apply List.in_app_or in Hin as [Hin|[<-|[]]];
    [apply Htrace, Hin | exact He].
Qed.

Lemma well_named_stop_poll (s : State) :
  well_named s →
  well_named (match checkWidgetInterval s with
              | Some h => set_checkWidgetInterval None (clearInterval h s)
              | None => s
              end).
Proof.
  intros Hs. destruct (checkWidgetInterval s) as [h|]; [|exact Hs].
  apply (well_named_clearInterval h s Hs).
Qed.

Lemma well_named_setupReset (s : State) :
  well_named s → well_named (setupReset widget s).
Proof.
  intros Hs. unfold setupReset.
  destruct (negb widget || negb (bool_decide (is_Some (turnstile s)))); [exact Hs|].
  apply (well_named_schedule CheckWidgetExpiry WIDGET_INIT_TIMEOUT None
           (set_checkWidgetInterval (Some (nextHandle s))
              (snd (setInterval CheckWidget WIDGET_CHECK_INTERVAL s))));
    [|reflexivity].
  apply (well_named_schedule CheckWidget WIDGET_CHECK_INTERVAL _ s Hs). reflexivity.
Qed.

Lemma well_named_checkWidget (s : State) :
  well_named s → well_named (checkWidget options s).
Proof.
  intros Hs. unfold checkWidget.
  destruct (Js.truthy_str (widgetIdAttr s)) eqn:Hid; [|exact Hs].
  pose proof (well_named_stop_poll s Hs) as Hstopped.
  set (s' := match checkWidgetInterval s with
             | Some h => set_checkWidgetInterval None (clearInterval h s)
             | None => s
             end) in *.
  apply (well_named_schedule (ResetWidget (default "" (widgetIdAttr s)))
           (refreshInterval' options) _ s' Hstopped).
  destruct (widgetIdAttr s) as [w|]; [exact Hid | discriminate Hid].
Qed.

Lemma well_named_resetWidget (widgetId : string) (s : State) :
  well_named s → names_widget (ResetWidget widgetId) = true →
  well_named (resetWidget options widgetId s).
Proof.
  intros Hs Hid. unfold resetWidget.
  assert (Hfailed : ∀ s', well_named s' →
            well_named (if onError options
                        then record (Failed (now (record (Warned (now s')) s')))
                                    (record (Warned (now s')) s')
                        else record (Warned (now s')) s')).
  { intros s' Hs'. destruct (onError options);
      repeat (apply well_named_record; [|reflexivity]); exact Hs'. }
  destruct (turnstile s) as [a|]; [|apply Hfailed, Hs].
  pose proof (well_named_record (ResetCalled (now s) widgetId) s Hs Hid) as Hcalled.
  destruct (reset_throws a widgetId); [apply Hfailed, Hcalled|].
  destruct (onRefresh options); [|exact Hcalled].
  apply well_named_record; [exact Hcalled | reflexivity].
Qed.

Lemma well_named_fire (s : State) (h : handle) :
  well_named s → well_named (fire widget options s h).
Proof.
  intros Hs. unfold fire.
  destruct (find _ (timers s)) as [t|] eqn:Hfind; [|exact Hs].
  destruct (due t =? now s); [|exact Hs].
  apply List.find_some in Hfind as [Hin _].
  assert (Hname : names_widget (action t) = true) by (apply Hs, Hin).
  assert (Hbefore : well_named (match every t with
                                | Some p => reschedule h p s
                                | None => clearInterval h s
                                end)).
  { destruct (every t);
      [apply well_named_reschedule | apply well_named_clearInterval]; exact Hs. }
  destruct (action t); cbn [run_callback].
  - apply well_named_checkWidget, Hbefore.
  - apply well_named_resetWidget; assumption.
  - apply well_named_stop_poll, Hbefore.
  - apply well_named_setupReset, Hbefore.
  - unfold checkScript. destruct (bool_decide _); [|exact Hbefore].
    apply well_named_setupReset, well_named_clearInterval, Hbefore.
  - apply well_named_clearInterval, Hbefore.
Qed.

Lemma well_named_tick (s : State) : well_named s → well_named (tick widget options s).
Proof.
  intros Hs. unfold tick.
  assert (Hfold : ∀ hs s', well_named s' →
                           well_named (fold_left (fire widget options) hs s')).
  { induction hs as [|h hs IH]; intros s' Hs'; [exact Hs'|].
    cbn [fold_left]. apply IH, well_named_fire, Hs'. }
  apply Hfold. exact Hs.
Qed.

Lemma well_named_advance (ms : N) (s : State) :
  well_named s → well_named (advance widget options ms s).
Proof.
  intros Hs. unfold advance.
  induction ms as [|ms IH] using N.peano_ind; [exact Hs|].
  rewrite N.iter_succ. apply well_named_tick, IH.
Qed.

Lemma well_named_cleanup (s : State) : well_named s → well_named (cleanup s).
Proof.
  intros Hs. unfold cleanup. destruct (isCleanedUp s); [exact Hs|].
  assert (Hflag : well_named (set_isCleanedUp true s)) by exact Hs.
  revert Hflag. generalize (set_isCleanedUp true s). intros s1 Hs1.
  assert (Hreset : well_named
            (match turnstileResetInterval s1 with
             | Some h => set_turnstileResetInterval None (clearInterval h s1)
             | None => s1
             end)).
  { destruct (turnstileResetInterval s1) as [h|]; [|exact Hs1].
    apply (well_named_clearInterval h s1 Hs1). }
  apply well_named_stop_poll, Hreset.
Qed.

Lemma well_named_run (steps : list step) (s : State) :
  well_named s → well_named (run widget options steps s).
Proof.
  revert s. induction steps as [|a steps IH]; intros s Hs; [exact Hs|].
  rewrite run_cons. apply IH. destruct a; cbn [do_step].
  - apply well_named_advance, Hs.
  - apply well_named_cleanup, Hs.
  - destruct (loadListener s); [|exact Hs].
    apply (well_named_schedule DelayedSetupReset 500 None s Hs). reflexivity.
  - destruct (unloadListener s); [apply well_named_cleanup|]; exact Hs.
  - exact Hs.
  - exact Hs.
Qed.

Lemma well_named_setup (a : option TurnstileAPI) (widgetId : option string) :
  well_named (setupAutoRefresh widget (page a widgetId)).
Proof.
  assert (Hpage : ∀ s, timers s = [] → trace s = [] → well_named s).
  { intros s Ht He. split; [rewrite Ht | rewrite He]; intros x []. }
  unfold setupAutoRefresh.
  destruct (bool_decide _).
  - apply well_named_setupReset, Hpage; reflexivity.
  - apply (well_named_schedule (CheckScriptExpiry _) 5000 None); [|reflexivity].
    apply (well_named_schedule CheckScript 100 _); [|reflexivity].
    apply Hpage; reflexivity.
Qed.

End Named.

(** Reset is never called with an empty identifier: on a fresh page,
    whichever way the script and the identifier arrive, every reset call
    the session ever makes carries a non-empty widget identifier. *)
Theorem reset_names_a_widget (widget : bool) (options : AutoRefreshOptions)
    (a : option TurnstileAPI) (widgetId : option string) (steps : list step)
    (time : N) (w : string) :
  In (ResetCalled time w)
     (trace (run widget options steps (setupAutoRefresh widget (page a widgetId)))) →
  w ≠ "".
Proof.
  intros Hin.
  destruct (well_named_run widget options steps _
              (well_named_setup widget a widgetId)) as [_ Htrace].
  specialize (Htrace _ Hin). cbn in Htrace.
  apply negb_true_iff, String.eqb_neq in Htrace. exact Htrace.
Qed.

Lemma reset_names_a_widget_witness :
  In (ResetCalled 1100 "widget-123")
     (trace (run true every_second [Wait 100; Wait 1000]
               (setupAutoRefresh true (page (Some api) (Some "widget-123"))))) ∧
  "widget-123" ≠ "".
Proof.
  assert (Hcalled :
    In (ResetCalled 1100 "widget-123")
       (trace (run true every_second [Wait 100; Wait 1000]
                 (setupAutoRefresh true (page (Some api) (Some "widget-123"))))))
    by (vm_compute; left; reflexivity).
  split; [exact Hcalled|].
  exact (reset_names_a_widget true every_second (Some api) (Some "widget-123")
           [Wait 100; Wait 1000] 1100 "widget-123" Hcalled).
Defined.

(** *** The recurring reset *)


Section Running.
Variable options : AutoRefreshOptions.
Variable a : TurnstileAPI.
Variable w : string.
Variable h : handle.
Variable p : N.
Hypothesis period_positive : 1 ≤ p.














End Running.




End RefreshMore.
